(** * golang-jenkins: the request/response dispatch layer of jenkins.go

    A shallow embedding of [jenkins.go] (package gojenkins).  Library
    calls the file makes ([fmt.Sprintf], [strings.Split], [strconv.Atoi],
    [url.Values.Encode], [http.Header.Get]) are modelled after the Go
    documentation; the network, the JSON/XML codecs and the request
    constructor are an environment record the client runs against. *)

From Stdlib Require Import ZArith String Ascii List Bool Lia DecimalString.
From stdpp Require Import base option list strings gmap sorting.

Local Open Scope string_scope.
Local Open Scope Z_scope.

(** ** Strings *)

Module GoStrings.

(** [strings.Split(s, sep)] for a one-byte separator: the pieces between
    the separators, one more than there are separators. *)
Fixpoint Split (s : string) (sep : ascii) : list string :=
  match s with
  | EmptyString => [EmptyString]
  | String c rest =>
      if Ascii.eqb c sep then EmptyString :: Split rest sep
      else match Split rest sep with
           | [] => [String c EmptyString]
           | piece :: pieces => String c piece :: pieces
           end
  end.

(** [strings.Contains]. *)
Fixpoint Contains (s sub : string) : bool :=
  String.prefix sub s ||
  match s with
  | EmptyString => false
  | String _ rest => Contains rest sub
  end.

(** Decimal rendering of an integer, as [%d] and [strconv.Itoa] print it. *)
Definition Itoa (n : Z) : string := NilZero.string_of_int (Z.to_int n).

Definition digit_of (c : ascii) : option Z :=
  let n := Z.of_N (N_of_ascii c) in
  if (48 <=? n) && (n <=? 57) then Some (n - 48) else None.

Fixpoint digits (acc : Z) (s : string) : option Z :=
  match s with
  | EmptyString => Some acc
  | String c rest =>
      match digit_of c with
      | Some d => digits (10 * acc + d) rest
      | None => None
      end
  end.

Definition maxInt : Z := 2 ^ 63 - 1.
Definition minInt : Z := - 2 ^ 63.

(** [strconv.Atoi]: an optional sign and decimal digits, on a 64-bit
    [int].  A syntax error gives 0, a range error the nearest bound, both
    with a non-nil error. *)
Definition Atoi (s : string) : Z * option string :=
  let syntax := Some ("strconv.Atoi: parsing: invalid syntax") in
  let range := Some ("strconv.Atoi: parsing: value out of range") in
  let '(neg, body) :=
    match s with
    | String "-" rest => (true, rest)
    | String "+" rest => (false, rest)
    | _ => (false, s)
    end in
  match body with
  | EmptyString => (0, syntax)
  | _ =>
      match digits 0 body with
      | None => (0, syntax)
      | Some n =>
          if neg then
            if - n <? minInt then (minInt, range) else (- n, None)
          else
            if maxInt <? n then (maxInt, range) else (n, None)
      end
  end.

End GoStrings.

(** ** fmt.Sprintf *)

Module Fmt.

(** The operands this file passes to [fmt.Sprintf]. *)
Inductive Arg :=
| AString (s : string)
| AInt (n : Z).

Definition typeName (a : Arg) : string :=
  match a with AString _ => "string" | AInt _ => "int" end.

Definition render (a : Arg) : string :=
  match a with AString s => s | AInt n => GoStrings.Itoa n end.

(** One verb applied to one operand.  [%s] prints a string and [%d] an
    integer; an operand of the wrong type is printed as
    [%!verb(type=value)]. *)
Definition verb (v : ascii) (a : Arg) : string :=
  match v, a with
  | "s"%char, AString s => s
  | "d"%char, AInt n => GoStrings.Itoa n
  | _, _ =>
      "%!" ++ String v ("(" ++ typeName a ++ "=" ++ render a ++ ")")
  end.

Fixpoint extra (args : list Arg) : string :=
  match args with
  | [] => ""
  | [a] => typeName a ++ "=" ++ render a
  | a :: rest => typeName a ++ "=" ++ render a ++ ", " ++ extra rest
  end.

(** [fmt.Sprintf(format, args...)] for the verbs [%s], [%d] and [%%];
    a missing operand prints [%!v(MISSING)], a trailing [%] prints
    [%!(NOVERB)], operands left over are listed in [%!(EXTRA ...)]. *)
Fixpoint Sprintf (format : string) (args : list Arg) : string :=
  match format with
  | EmptyString =>
      match args with
      | [] => ""
      | _ => "%!(EXTRA " ++ extra args ++ ")"
      end
  | String "%" EmptyString => "%!(NOVERB)"
  | String "%" (String "%" rest) => String "%" (Sprintf rest args)
  | String "%" (String v rest) =>
      match args with
      | [] => "%!" ++ String v ("(MISSING)" ++ Sprintf rest [])
      | a :: args' => verb v a ++ Sprintf rest args'
      end
  | String c rest => String c (Sprintf rest args)
  end.

End Fmt.

(** ** net/url query encoding *)

Module Url.

Definition hexDigit (n : N) : ascii :=
  ascii_of_N (if (n <? 10)%N then 48 + n else 55 + n)%N.

Definition unreserved (c : ascii) : bool :=
  let n := N_of_ascii c in
  ((48 <=? n) && (n <=? 57) || (65 <=? n) && (n <=? 90)
   || (97 <=? n) && (n <=? 122))%N
  || Ascii.eqb c "-" || Ascii.eqb c "_" || Ascii.eqb c "."
  || Ascii.eqb c "~".

(** [url.QueryEscape]. *)
Fixpoint QueryEscape (s : string) : string :=
  match s with
  | EmptyString => EmptyString
  | String c rest =>
      if unreserved c then String c (QueryEscape rest)
      else if Ascii.eqb c " " then String "+" (QueryEscape rest)
      else
        let n := N_of_ascii c in
        String "%" (String (hexDigit (n / 16)) (String (hexDigit (n mod 16))
                                                  (QueryEscape rest)))
  end.

(** [url.Values] is [map[string][]string]; the nil map is [None]. *)
Definition Values : Type := option (gmap string (list string)).

Definition keyLe (a b : string * list string) : Prop :=
  String.leb a.1 b.1 = true.

#[global] Instance keyLe_dec a b : Decision (keyLe a b).
Proof. unfold keyLe. apply _. Defined.

Definition pair (key value : string) : string :=
  QueryEscape key ++ "=" ++ QueryEscape value.

Fixpoint join (parts : list string) : string :=
  match parts with
  | [] => ""
  | [p] => p
  | p :: rest => p ++ "&" ++ join rest
  end.

(** [Values.Encode]: [key=value] pairs, keys sorted, joined by [&]. *)
Definition Encode (v : gmap string (list string)) : string :=
  join (flat_map (fun kv => map (pair kv.1) kv.2)
          (merge_sort keyLe (map_to_list v))).

End Url.

(** ** net/http and the codecs *)

(** Go [error] values, by their message. *)
Definition error : Type := string.

Module Http.

Record Request := {
  Method : string;
  URL : string;
  Body : option string;                  (* io.Reader: nil or its bytes *)
  ContentType : option string;           (* req.Header.Add("Content-Type", _) *)
  BasicAuth : option (string * string)   (* req.SetBasicAuth(user, password) *)
}.

Definition SetBasicAuth (req : Request) (username password : string) : Request :=
  {| Method := Method req; URL := URL req; Body := Body req;
     ContentType := ContentType req;
     BasicAuth := Some (username, password) |}.

Definition AddContentType (req : Request) (value : string) : Request :=
  {| Method := Method req; URL := URL req; Body := Body req;
     ContentType := Some value;
     BasicAuth := BasicAuth req |}.

(** What the server answers: status, headers, and a body stream given by
    the bytes it delivers and the error (if any) that ends the read. *)
Record Answer := {
  status : Z;
  header : gmap string (list string);
  bodyData : string;
  bodyErr : option error
}.

(** A [*http.Response]; [Id] tells the responses of one run apart. *)
Record Response := {
  Id : nat;
  StatusCode : Z;
  Header : gmap string (list string);
  BodyData : string;
  BodyErr : option error
}.

(** [Header.Get(key)] for a canonical key: the first value, or [""]. *)
Definition Get (h : gmap string (list string)) (key : string) : string :=
  match h !! key with
  | Some (v :: _) => v
  | _ => ""
  end.

End Http.

Import Http.

(** The struct types [jenkins.go] decodes into.  Their declarations are in
    other files of the package. *)
Inductive GoType := TJobs | TJob | TMavenJobItem | TBuild | TItem | TQueue.

Inductive Codec := Json | Xml.

(** Values of the struct types declared outside [jenkins.go]: the values
    themselves, their zero values and the fields this file reads. *)
Class Structs := {
  Value : Type;
  zero : GoType -> Value;
  Jobs : Value -> Value;             (* payload.Jobs *)
  Name : Value -> string;            (* job.Name, listView.Name *)
  Url : Value -> string;             (* build.Url *)
  RelativePath : Value -> string     (* artifact.RelativePath *)
}.

(** What a client runs against: request validation, the network, and the
    codecs of [encoding/json] and [encoding/xml]. *)
Record Env `{Structs} := {
  (* http.NewRequest(method, url, _): the error for a bad method or URL *)
  newRequestErr : string -> string -> option error;
  (* http.DefaultClient.Do: the answer to the n-th request of a run *)
  transport : nat -> Request -> error + Answer;
  (* Unmarshal(data, &v) for v of the given type: the new v and the error *)
  decode : Codec -> string -> GoType -> Value -> Value * option error;
  (* xml.Marshal(v) *)
  xmlMarshal : Value -> error + string
}.

(** A value of type [interface{}] handed to the decoders: the nil
    interface, or a pointer with its dynamic type, itself nil ([None]) or
    pointing to a variable with the given contents. *)
Inductive iface `{Structs} :=
| nil_iface
| ptr (ty : GoType) (cell : option Value).

(** ** The client *)

Record Auth := { Username : string; ApiToken : string }.

Record Jenkins := {
  auth : option Auth;      (* *Auth, possibly nil *)
  baseUrl : string
}.

Definition NewJenkins (a : option Auth) (base : string) : Jenkins :=
  {| auth := a; baseUrl := base |}.

(** Calls into the libraries that a run makes, in order. *)
Inductive Event :=
| EvDo (req : Request)                       (* http.DefaultClient.Do(req) *)
| EvReadAll (id : nat)                       (* ioutil.ReadAll(resp.Body) *)
| EvClose (id : nat)                         (* resp.Body.Close() *)
| EvUnmarshal (c : Codec) (data : string).   (* json/xml.Unmarshal(data, _) *)

(** The state a method runs in: the struct behind the receiver pointer and
    the library calls made so far. *)
Record State := { client : Jenkins; log : list Event }.

Inductive Result (A : Type) :=
| Ret (a : A)
| Panic (msg : string)
| OutOfFuel.
Arguments Ret {A} a.
Arguments Panic {A} msg.
Arguments OutOfFuel {A}.

Definition M (A : Type) : Type := State -> Result A * State.

Definition ret {A} (a : A) : M A := fun s => (Ret a, s).

Definition bind {A B} (m : M A) (k : A -> M B) : M B :=
  fun s =>
    match m s with
    | (Ret a, s') => k a s'
    | (Panic msg, s') => (Panic msg, s')
    | (OutOfFuel, s') => (OutOfFuel, s')
    end.

Definition panic {A} (msg : string) : M A := fun s => (Panic msg, s).

Definition outOfFuel {A} : M A := fun s => (OutOfFuel, s).

Definition receiver : M Jenkins := fun s => (Ret (client s), s).

(** The state after further library calls. *)
Definition extend (s : State) (es : list Event) : State :=
  {| client := client s; log := log s ++ es |}.

Definition emit (e : Event) : M unit := fun s => (Ret tt, extend s [e]).

(** [defer d] before a body: [d] runs when the body returns and also when
    it panics. *)
Definition defer {A} (d : M unit) (body : M A) : M A :=
  fun s => let (r, s') := body s in (r, (d s').2).

Declare Scope go_scope.
Delimit Scope go_scope with go.
Notation "'let*' x ':=' m 'in' k" := (bind m (fun x => k))
  (at level 10, x pattern, m at level 100, k at level 200) : go_scope.
Local Open Scope go_scope.

Definition requestsOf (l : list Event) : list Request :=
  flat_map (fun e => match e with EvDo r => [r] | _ => [] end) l.

Definition closesOf (id : nat) (l : list Event) : nat :=
  length (List.filter (fun e => match e with EvClose i => Nat.eqb i id | _ => false end) l).

Definition unmarshalsOf (l : list Event) : list (Codec * string) :=
  flat_map (fun e => match e with EvUnmarshal c d => [(c, d)] | _ => [] end) l.

Definition readsOf (l : list Event) : list nat :=
  flat_map (fun e => match e with EvReadAll i => [i] | _ => [] end) l.

(** The response made of the server's answer to request [n]. *)
Definition response (n : nat) (a : Answer) : Response :=
  {| Id := n; StatusCode := status a; Header := header a;
     BodyData := bodyData a; BodyErr := bodyErr a |}.

Section Client.

Context `{Structs} (env : Env).

(** *** Library calls *)

(** [http.NewRequest(method, url, body)]. *)
Definition NewRequest (method url : string) (body : option string)
  : M (error + Request) :=
  match newRequestErr env method url with
  | Some e => ret (inl e)
  | None =>
      ret (inr {| Method := method; URL := url; Body := body;
                  ContentType := None; BasicAuth := None |})
  end.

(** [http.DefaultClient.Do(req)]. *)
Definition Do (req : Request) : M (error + Response) :=
  fun s =>
    let n := length (requestsOf (log s)) in
    let s' := extend s [EvDo req] in
    match transport env n req with
    | inl e => (Ret (inl e), s')
    | inr a => (Ret (inr (response n a)), s')
    end.

(** [resp.Body.Close()]. *)
Definition Close (resp : Response) : M unit := emit (EvClose (Id resp)).

(** [ioutil.ReadAll(resp.Body)]. *)
Definition ReadAll (resp : Response) : M (string * option error) :=
  let* _ := emit (EvReadAll (Id resp)) in
  ret (BodyData resp, BodyErr resp).

(** What [Unmarshal(data, body)] leaves behind: the target after the
    call and the error.  Nothing can be stored through a nil interface or
    a nil pointer. *)
Definition stored (c : Codec) (data : string) (body : iface)
  : iface * option error :=
  match body with
  | ptr ty (Some v) =>
      let '(v', err) := decode env c data ty v in (ptr ty (Some v'), err)
  | _ => (body, Some "Unmarshal: nil target")
  end.

(** [json.Unmarshal(data, body)] and [xml.Unmarshal(data, body)]. *)
Definition Unmarshal (c : Codec) (data : string) (body : iface)
  : M (iface * option error) :=
  let* _ := emit (EvUnmarshal c data) in
  ret (stored c data body).

(** The dynamic type of an interface value, as a type switch sees it. *)
Definition typeOf (body : iface) : option GoType :=
  match body with
  | nil_iface => None
  | ptr ty _ => Some ty
  end.

(** The variable behind a pointer, read back by the caller. *)
Definition deref (ty : GoType) (body : iface) : Value :=
  match body with
  | ptr _ (Some v) => v
  | _ => zero ty
  end.

(** *** jenkins.go *)

Definition buildUrl (jenkins : Jenkins) (path : string) (params : Url.Values)
  : string :=
  let requestUrl := baseUrl jenkins ++ path ++ "/api/json" in
  match params with
  | Some v =>
      let queryString := Url.Encode v in
      if String.eqb queryString "" then requestUrl
      else requestUrl ++ "?" ++ queryString
  | None => requestUrl
  end.

Definition sendRequest (req : Request) : M (error + Response) :=
  let* jenkins := receiver in
  match auth jenkins with
  | None => panic "invalid memory address or nil pointer dereference"
  | Some a => Do (SetBasicAuth req (Username a) (ApiToken a))
  end.

Definition parseXmlResponse (resp : Response) (body : iface)
  : M (iface * option error) :=
  defer (Close resp)
    match body with
    | nil_iface => ret (body, None)
    | _ =>
        let* (data, err) := ReadAll resp in
        match err with
        | Some e => ret (body, Some e)
        | None => Unmarshal Xml data body
        end
    end.

(** [get], with the decoder it hands the response to left open:
    [parseResponse] reaches [get] again through [GetQueueItem]. *)
Definition getWith (parse : Response -> iface -> M (iface * option error))
    (path : string) (params : Url.Values) (body : iface)
  : M (iface * option error) :=
  let* jenkins := receiver in
  let requestUrl := buildUrl jenkins path params in
  let* r := NewRequest "GET" requestUrl None in
  match r with
  | inl e => ret (body, Some e)
  | inr req =>
      let* r := sendRequest req in
      match r with
      | inl e => ret (body, Some e)
      | inr resp => parse resp body
      end
  end.

Definition GetQueueItemWith
    (parse : Response -> iface -> M (iface * option error)) (itemNo : Z)
  : M (Value * option error) :=
  let item := ptr TItem (Some (zero TItem)) in
  let* (item, err) :=
    getWith parse (Fmt.Sprintf "/queue/item/%s" [Fmt.AInt itemNo]) None item in
  ret (deref TItem item, err).

(** The [case *Item] block of [parseResponse] (lines 74-80), with the
    lookup of the queue item left open.  The result is the caller's target
    after the call; the assignment to the local [body] is not seen by the
    caller. *)
Definition itemCase (lookup : Z -> M (Value * option error))
    (resp : Response) (body : iface) : M (iface * option error) :=
  let loc := Get (Header resp) "Location" in
  if String.eqb loc "" then ret (body, None)
  else
    let pieces := GoStrings.Split loc "/" in
    match nth_error pieces 5 with
    | None =>
        panic ("runtime error: index out of range [5] with length "
               ++ GoStrings.Itoa (Z.of_nat (length pieces)))
    | Some segment =>
        let '(itemNo, _) := GoStrings.Atoi segment in
        let* (_, err) := lookup itemNo in
        ret (body, err)
    end.

(** [parseResponse].  [fuel] bounds the re-entry through [GetQueueItem]. *)
Fixpoint parseResponse (fuel : nat) (resp : Response) (body : iface)
  : M (iface * option error) :=
  defer (Close resp)
    match body with
    | nil_iface =>
        match typeOf body with
        | Some TItem =>
            match fuel with
            | O => outOfFuel
            | S fuel' =>
                itemCase (GetQueueItemWith (parseResponse fuel')) resp body
            end
        | _ => ret (body, None)
        end
    | _ =>
        let* (data, err) := ReadAll resp in
        match err with
        | Some e => ret (body, Some e)
        | None => Unmarshal Json data body
        end
    end.

(** [parseResponse] re-enters itself at most once, and then with the
    non-nil target [&item]. *)
Definition callDepth : nat := 1.

Definition get : string -> Url.Values -> iface -> M (iface * option error) :=
  getWith (parseResponse callDepth).

Definition getXml (path : string) (params : Url.Values) (body : iface)
  : M (iface * option error) :=
  let* jenkins := receiver in
  let requestUrl := buildUrl jenkins path params in
  let* r := NewRequest "GET" requestUrl None in
  match r with
  | inl e => ret (body, Some e)
  | inr req =>
      let* r := sendRequest req in
      match r with
      | inl e => ret (body, Some e)
      | inr resp => parseXmlResponse resp body
      end
  end.

Definition post (path : string) (params : Url.Values) (body : iface)
  : M (iface * option error) :=
  let* jenkins := receiver in
  let requestUrl := buildUrl jenkins path params in
  let* r := NewRequest "POST" requestUrl None in
  match r with
  | inl e => ret (body, Some e)
  | inr req =>
      let* r := sendRequest req in
      match r with
      | inl e => ret (body, Some e)
      | inr resp => parseResponse callDepth resp body
      end
  end.

Definition postXml (path : string) (params : Url.Values) (xmlBody : string)
    (body : iface) : M (iface * option error) :=
  let* jenkins := receiver in
  let requestUrl := baseUrl jenkins ++ path in
  let requestUrl :=
    match params with
    | Some v =>
        let queryString := Url.Encode v in
        if String.eqb queryString "" then requestUrl
        else requestUrl ++ "?" ++ queryString
    | None => requestUrl
    end in
  let* r := NewRequest "POST" requestUrl (Some xmlBody) in
  match r with
  | inl e => ret (body, Some e)
  | inr req =>
      let req := AddContentType req "application/xml" in
      let* r := sendRequest req in
      match r with
      | inl e => ret (body, Some e)
      | inr resp =>
          if negb (StatusCode resp =? 200) then
            ret (body,
                 Some (Fmt.Sprintf
                         "error: HTTP POST returned status code returned: %d"
                         [Fmt.AInt (StatusCode resp)]))
          else parseXmlResponse resp body
      end
  end.

(** [xml.Marshal(v)]: the bytes and the error; no bytes on an error. *)
Definition Marshal (v : Value) : string * option error :=
  match xmlMarshal env v with
  | inr data => (data, None)
  | inl e => ("", Some e)
  end.

(** [url.Values{"name": []string{n}}]. *)
Definition nameParam (n : string) : Url.Values :=
  Some {[ "name" := [n] ]}.

Definition GetJobs : M (Value * option error) :=
  let payload := ptr TJobs (Some (zero TJobs)) in
  let* (payload, err) := get "" None payload in
  ret (Jobs (deref TJobs payload), err).

Definition GetJob (name : string) : M (Value * option error) :=
  let job := ptr TJob (Some (zero TJob)) in
  let* (job, err) := get (Fmt.Sprintf "/job/%s" [Fmt.AString name]) None job in
  ret (deref TJob job, err).

Definition GetJobConfig (name : string) : M (Value * option error) :=
  let job := ptr TMavenJobItem (Some (zero TMavenJobItem)) in
  let* (job, err) :=
    getXml (Fmt.Sprintf "/job/%s/config.xml" [Fmt.AString name]) None job in
  ret (deref TMavenJobItem job, err).

Definition GetBuild (job : Value) (number : Z) : M (Value * option error) :=
  let build := ptr TBuild (Some (zero TBuild)) in
  let* (build, err) :=
    get (Fmt.Sprintf "/job/%s/%d" [Fmt.AString (Name job); Fmt.AInt number])
      None build in
  ret (deref TBuild build, err).

Definition CreateJob (mavenJobItem : Value) (jobName : string)
  : M (option error) :=
  let '(mavenJobItemXml, _) := Marshal mavenJobItem in
  let reader := mavenJobItemXml in
  let params := nameParam jobName in
  let* (_, err) := postXml "/createItem" params reader nil_iface in
  ret err.

Definition AddJobToView (viewName : string) (job : Value) : M (option error) :=
  let params := nameParam (Name job) in
  let* (_, err) :=
    post (Fmt.Sprintf "/view/%s/addJobToView" [Fmt.AString viewName])
      params nil_iface in
  ret err.

Definition CreateView (listView : Value) : M (option error) :=
  let '(xmlListView, _) := Marshal listView in
  let reader := xmlListView in
  let params := nameParam (Name listView) in
  let* (_, err) := postXml "/createView" params reader nil_iface in
  ret err.

Definition Build (job : Value) (params : Url.Values)
  : M (Value * option error) :=
  let item := ptr TItem (Some (zero TItem)) in
  let* (item, err) :=
    match params with
    | None =>
        post (Fmt.Sprintf "/job/%s/build" [Fmt.AString (Name job)]) params item
    | Some _ =>
        post (Fmt.Sprintf "/job/%s/buildWithParameters"
                [Fmt.AString (Name job)]) params item
    end in
  ret (deref TItem item, err).

Definition GetBuildConsoleOutput (build : Value) : M (string * option error) :=
  let requestUrl := Fmt.Sprintf "%s/consoleText" [Fmt.AString (Url build)] in
  let* r := NewRequest "GET" requestUrl None in
  match r with
  | inl e => ret ("", Some e)
  | inr req =>
      let* r := sendRequest req in
      match r with
      | inl e => ret ("", Some e)
      | inr res => defer (Close res) (ReadAll res)
      end
  end.

Definition GetQueue : M (Value * option error) :=
  let queue := ptr TQueue (Some (zero TQueue)) in
  let* (queue, err) := get (Fmt.Sprintf "/queue" []) None queue in
  ret (deref TQueue queue, err).

Definition GetQueueItem (itemNo : Z) : M (Value * option error) :=
  let item := ptr TItem (Some (zero TItem)) in
  let* (item, err) :=
    get (Fmt.Sprintf "/queue/item/%s" [Fmt.AInt itemNo]) None item in
  ret (deref TItem item, err).

Definition GetArtifact (build artifact : Value) : M (string * option error) :=
  let requestUrl :=
    Fmt.Sprintf "%s/artifact/%s"
      [Fmt.AString (Url build); Fmt.AString (RelativePath artifact)] in
  let* r := NewRequest "GET" requestUrl None in
  match r with
  | inl e => ret ("", Some e)
  | inr req =>
      let* r := sendRequest req in
      match r with
      | inl e => ret ("", Some e)
      | inr res => defer (Close res) (ReadAll res)
      end
  end.

(** *** The exported operations, as one type *)

Inductive Call :=
| CallGetJobs
| CallGetJob (name : string)
| CallGetJobConfig (name : string)
| CallGetBuild (job : Value) (number : Z)
| CallCreateJob (mavenJobItem : Value) (jobName : string)
| CallAddJobToView (viewName : string) (job : Value)
| CallCreateView (listView : Value)
| CallBuild (job : Value) (params : Url.Values)
| CallGetBuildConsoleOutput (build : Value)
| CallGetQueue
| CallGetQueueItem (itemNo : Z)
| CallGetArtifact (build artifact : Value).

Inductive Reply :=
| RValue (v : Value) (err : option error)
| RBytes (data : string) (err : option error)
| RError (err : option error).

Definition run (c : Call) : M Reply :=
  match c with
  | CallGetJobs => let* (v, e) := GetJobs in ret (RValue v e)
  | CallGetJob name => let* (v, e) := GetJob name in ret (RValue v e)
  | CallGetJobConfig name => let* (v, e) := GetJobConfig name in ret (RValue v e)
  | CallGetBuild job number => let* (v, e) := GetBuild job number in ret (RValue v e)
  | CallCreateJob item name => let* e := CreateJob item name in ret (RError e)
  | CallAddJobToView view job => let* e := AddJobToView view job in ret (RError e)
  | CallCreateView view => let* e := CreateView view in ret (RError e)
  | CallBuild job params => let* (v, e) := Build job params in ret (RValue v e)
  | CallGetBuildConsoleOutput build =>
      let* (d, e) := GetBuildConsoleOutput build in ret (RBytes d e)
  | CallGetQueue => let* (v, e) := GetQueue in ret (RValue v e)
  | CallGetQueueItem n => let* (v, e) := GetQueueItem n in ret (RValue v e)
  | CallGetArtifact build artifact =>
      let* (d, e) := GetArtifact build artifact in ret (RBytes d e)
  end.

End Client.

Arguments Call {_}.
Arguments Reply {_}.

(** ** A sample server

    Decoded values are the documents themselves; a job, build, artifact or
    view is named by the same string.  The server answers a build trigger
    with an empty [201] pointing at queue item 42, a [POST] of XML with a
    [500], and anything else with a [500] carrying a document. *)

Module Sample.

#[export] Instance structs : Structs :=
  {| Value := string; zero := fun _ => ""; Jobs := fun v => v;
     Name := fun v => v; Url := fun v => v; RelativePath := fun v => v |}.

Definition created : Answer :=
  {| status := 201;
     header := {[ "Location" := ["http://ci/queue/item/42/"] ]};
     bodyData := ""; bodyErr := None |}.

Definition failed (doc : string) : Answer :=
  {| status := 500; header := ∅; bodyData := doc; bodyErr := None |}.

Definition server (n : nat) (req : Request) : error + Answer :=
  if String.eqb (Method req) "POST" then
    match Body req with
    | None => inr created
    | Some _ => inr (failed "<html>Internal Server Error</html>")
    end
  else inr (failed "<maven2-moduleset/>").

(** The codecs reject an empty input and otherwise store the document. *)
Definition codec (c : Codec) (data : string) (ty : GoType) (v : string)
  : string * option error :=
  if String.eqb data "" then (v, Some "unexpected end of input")
  else (data, None).

Definition env : Env :=
  {| newRequestErr := fun _ _ => None;
     transport := server;
     decode := codec;
     xmlMarshal := fun v => if String.eqb v "" then inl "marshal failed" else inr v |}.

Definition jenkins : Jenkins :=
  NewJenkins (Some {| Username := "admin"; ApiToken := "s3cret" |}) "http://ci".

Definition start : State := {| client := jenkins; log := [] |}.

(** A client made with a nil [*Auth]. *)
Definition anonymous : State :=
  {| client := NewJenkins None "http://ci"; log := [] |}.

(** A network that is down, a request constructor that rejects every URL,
    and a server whose body breaks off while it is read. *)
Definition offline : Env :=
  {| newRequestErr := fun _ _ => None;
     transport := fun _ _ => inl "dial tcp: connection refused";
     decode := codec;
     xmlMarshal := fun v => inr v |}.

Definition strict : Env :=
  {| newRequestErr := fun _ _ => Some "invalid URL";
     transport := server;
     decode := codec;
     xmlMarshal := fun v => inr v |}.

Definition truncated : Answer :=
  {| status := 200; header := ∅; bodyData := "{";
     bodyErr := Some "unexpected EOF" |}.

Definition flaky : Env :=
  {| newRequestErr := fun _ _ => None;
     transport := fun _ _ => inr truncated;
     decode := codec;
     xmlMarshal := fun v => inr v |}.

(** A server that answers everything with the given status and document. *)
Definition answering (code : Z) (doc : string) : Env :=
  {| newRequestErr := fun _ _ => None;
     transport := fun _ _ =>
       inr {| status := code; header := ∅; bodyData := doc; bodyErr := None |};
     decode := codec;
     xmlMarshal := fun v => inr v |}.

(** The target [&item] of a build trigger, [item] being the zero value. *)
Definition itemTarget : iface := ptr TItem (Some "").


(** An empty response whose [Location] stops short of the item number. *)
Definition shortLocation : Response :=
  {| Id := 0; StatusCode := 201;
     Header := {[ "Location" := ["http://ci/queue"] ]};
     BodyData := ""; BodyErr := None |}.

End Sample.

(** ** Notions the statements use *)

(** A [Location] value the [*Item] case cannot resolve: fewer than six
    pieces around ["/"], or a sixth piece that is not a number. *)
Definition malformedLocation (loc : string) : bool :=
  match nth_error (GoStrings.Split loc "/") 5 with
  | None => true
  | Some segment =>
      match (GoStrings.Atoi segment).2 with
      | Some _ => true
      | None => false
      end
  end.

(** A request as [sendRequest] hands it to the network. *)
Definition signed (method url : string) (body ctype : option string) (a : Auth)
  : Request :=
  {| Method := method; URL := url; Body := body; ContentType := ctype;
     BasicAuth := Some (Username a, ApiToken a) |}.

(** The requests of a method that builds one request and sends it: none
    when [http.NewRequest] rejects it or the credentials are nil. *)
Definition sent `{Structs} (env : Env) (jenkins : Jenkins)
    (method url : string) (body ctype : option string) : list Request :=
  match newRequestErr env method url, auth jenkins with
  | None, Some a => [signed method url body ctype a]
  | _, _ => []
  end.

(** The query part of a request URL. *)
Definition query (params : Url.Values) : string :=
  match params with
  | Some v => if String.eqb (Url.Encode v) "" then "" else "?" ++ Url.Encode v
  | None => ""
  end.

(** The outcome of either parse function on a response, by codec. *)
Definition decoded `{Structs} (env : Env) (c : Codec) (resp : Response)
    (body : iface) : iface * option error :=
  match body with
  | nil_iface => (body, None)
  | _ =>
      match BodyErr resp with
      | Some e => (body, Some e)
      | None => stored env c (BodyData resp) body
      end
  end.

(** The library calls of either parse function on a response. *)
Definition decoding `{Structs} (c : Codec) (resp : Response) (body : iface)
  : list Event :=
  match body with
  | nil_iface => [EvClose (Id resp)]
  | _ =>
      match BodyErr resp with
      | Some _ => [EvReadAll (Id resp); EvClose (Id resp)]
      | None =>
          [EvReadAll (Id resp); EvUnmarshal c (BodyData resp);
           EvClose (Id resp)]
      end
  end.

(** One round trip as every method of the file makes it: build the request,
    sign and send it, hand the response to [onResp]; [onErr] is returned for
    an error of [http.NewRequest] or of the network. *)
Definition exchange `{Structs} {A} (env : Env) (method url : string)
    (body ctype : option string) (onErr : error -> A)
    (onResp : Response -> M A) : M A :=
  fun s =>
    match newRequestErr env method url with
    | Some e => (Ret (onErr e), s)
    | None =>
        match auth (client s) with
        | None => (Panic "invalid memory address or nil pointer dereference", s)
        | Some a =>
            let req := signed method url body ctype a in
            let n := length (requestsOf (log s)) in
            match transport env n req with
            | inl e => (Ret (onErr e), extend s [EvDo req])
            | inr ans => onResp (response n ans) (extend s [EvDo req])
            end
        end
    end.

(** A request carries the credentials of the client. *)
Definition authenticated (jenkins : Jenkins) (req : Request) : Prop :=
  exists a, auth jenkins = Some a /\
            BasicAuth req = Some (Username a, ApiToken a).

(** A computation leaves the client alone and only sends authenticated
    requests. *)
Definition wellBehaved {A} (m : M A) : Prop :=
  forall s,
    client (m s).2 = client s /\
    exists es, log (m s).2 = (log s ++ es)%list /\
               Forall (authenticated (client s)) (requestsOf es).

(** ** The exported operations, one by one

    What each operation hands to the dispatch layer, read off its body:
    method, path and parameters, payload, and how the answer is used. *)

Section Table.

Context `{Structs} (env : Env).

(** How an operation uses the response: decoded into a struct, body
    dropped (nil target), or the bytes as they are. *)
Inductive Mode :=
| Decode (codec : Codec) (ty : GoType)
| Discard
| Raw.

Definition modeOf (c : Call) : Mode :=
  match c with
  | CallGetJobs => Decode Json TJobs
  | CallGetJob _ => Decode Json TJob
  | CallGetJobConfig _ => Decode Xml TMavenJobItem
  | CallGetBuild _ _ => Decode Json TBuild
  | CallCreateJob _ _ => Discard
  | CallAddJobToView _ _ => Discard
  | CallCreateView _ => Discard
  | CallBuild _ _ => Decode Json TItem
  | CallGetBuildConsoleOutput _ => Raw
  | CallGetQueue => Decode Json TQueue
  | CallGetQueueItem _ => Decode Json TItem
  | CallGetArtifact _ _ => Raw
  end.

(** The operations that go through [postXml]. *)
Definition viaPostXml (c : Call) : bool :=
  match c with
  | CallCreateJob _ _ | CallCreateView _ => true
  | _ => false
  end.

Definition methodOf (c : Call) : string :=
  match c with
  | CallCreateJob _ _ | CallAddJobToView _ _ | CallCreateView _
  | CallBuild _ _ => "POST"
  | _ => "GET"
  end.

Definition paramsOf (c : Call) : Url.Values :=
  match c with
  | CallCreateJob _ jobName => nameParam jobName
  | CallAddJobToView _ job => nameParam (Name job)
  | CallCreateView listView => nameParam (Name listView)
  | CallBuild _ params => params
  | _ => None
  end.

(** The path under the base address; for the two raw fetches, the whole
    URL, which starts from [build.Url]. *)
Definition pathOf (c : Call) : string :=
  match c with
  | CallGetJobs => ""
  | CallGetJob name => "/job/" ++ name
  | CallGetJobConfig name => "/job/" ++ name ++ "/config.xml"
  | CallGetBuild job number =>
      "/job/" ++ Name job ++ "/" ++ GoStrings.Itoa number
  | CallCreateJob _ _ => "/createItem"
  | CallAddJobToView viewName _ => "/view/" ++ viewName ++ "/addJobToView"
  | CallCreateView _ => "/createView"
  | CallBuild job None => "/job/" ++ Name job ++ "/build"
  | CallBuild job (Some _) => "/job/" ++ Name job ++ "/buildWithParameters"
  | CallGetBuildConsoleOutput build => Url build ++ "/consoleText"
  | CallGetQueue => "/queue"
  | CallGetQueueItem itemNo =>
      "/queue/item/%!s(int=" ++ GoStrings.Itoa itemNo ++ ")"
  | CallGetArtifact build artifact =>
      Url build ++ "/artifact/" ++ RelativePath artifact
  end.

Definition urlOf (jenkins : Jenkins) (c : Call) : string :=
  match modeOf c with
  | Raw => pathOf c
  | _ =>
      if viaPostXml c then baseUrl jenkins ++ pathOf c ++ query (paramsOf c)
      else baseUrl jenkins ++ pathOf c ++ "/api/json" ++ query (paramsOf c)
  end.

Definition payloadOf (c : Call) : option string :=
  match c with
  | CallCreateJob mavenJobItem _ => Some (Marshal env mavenJobItem).1
  | CallCreateView listView => Some (Marshal env listView).1
  | _ => None
  end.

Definition ctypeOf (c : Call) : option string :=
  if viaPostXml c then Some "application/xml" else None.

(** The request of an operation, signed with the credentials [a]. *)
Definition requestOf (jenkins : Jenkins) (a : Auth) (c : Call) : Request :=
  signed (methodOf c) (urlOf jenkins c) (payloadOf c) (ctypeOf c) a.

(** What the caller gets out of the decoded variable: [GetJobs] returns
    the field [Jobs] of its payload, the others the variable itself. *)
Definition project (c : Call) (v : Value) : Value :=
  match c with
  | CallGetJobs => Jobs v
  | _ => v
  end.

(** What an operation returns with an error met before any answer: the
    zero value (or no bytes) and the error. *)
Definition failure (c : Call) (e : error) : Reply :=
  match modeOf c with
  | Decode _ ty => RValue (project c (zero ty)) (Some e)
  | Discard => RError (Some e)
  | Raw => RBytes "" (Some e)
  end.

(** The error of [postXml] for a status other than 200. *)
Definition statusError (code : Z) : error :=
  "error: HTTP POST returned status code returned: " ++ GoStrings.Itoa code.

(** What an operation does with the response it got. *)
Definition handle (c : Call) (resp : Response) : M Reply :=
  fun s =>
    match modeOf c with
    | Decode codec ty =>
        let target := ptr ty (Some (zero ty)) in
        let r := decoded env codec resp target in
        (Ret (RValue (project c (deref ty r.1)) r.2),
         extend s (decoding codec resp target))
    | Discard =>
        if viaPostXml c && negb (StatusCode resp =? 200) then
          (Ret (RError (Some (statusError (StatusCode resp)))), s)
        else (Ret (RError None), extend s [EvClose (Id resp)])
    | Raw =>
        (Ret (RBytes (BodyData resp) (BodyErr resp)),
         extend s [EvReadAll (Id resp); EvClose (Id resp)])
    end.

End Table.

(** ** Strings and logs *)

Lemma append_empty_r (s : string) : s ++ "" = s.
Proof.
  induction s as [|c s IH]; [reflexivity|].
  change (String c (s ++ "") = String c s). by rewrite IH.
Qed.

Lemma append_assoc (a b c : string) : (a ++ b) ++ c = a ++ b ++ c.
Proof.
  induction a as [|x a IH]; [reflexivity|].
  change (String x ((a ++ b) ++ c) = String x (a ++ b ++ c)). by rewrite IH.
Qed.

Lemma Sprintf_queue_item (n : Z) :
  Fmt.Sprintf "/queue/item/%s" [Fmt.AInt n]
  = "/queue/item/%!s(int=" ++ GoStrings.Itoa n ++ ")".
Proof. cbn. by rewrite append_empty_r. Qed.

Lemma requestsOf_app (l1 l2 : list Event) :
  requestsOf (l1 ++ l2) = (requestsOf l1 ++ requestsOf l2)%list.
Proof. unfold requestsOf. apply flat_map_app. Qed.

Lemma closesOf_app (id : nat) (l1 l2 : list Event) :
  closesOf id (l1 ++ l2) = (closesOf id l1 + closesOf id l2)%nat.
Proof. unfold closesOf. by rewrite List.filter_app, length_app. Qed.

Lemma extend_nil (s : State) : extend s [] = s.
Proof. destruct s. unfold extend. simpl. by rewrite app_nil_r. Qed.

Lemma extend_extend (s : State) (l1 l2 : list Event) :
  extend (extend s l1) l2 = extend s (l1 ++ l2).
Proof. unfold extend. simpl. by rewrite <- app_assoc. Qed.

Lemma requestsOf_decoding `{Structs} (c : Codec) (resp : Response) (body : iface) :
  requestsOf (decoding c resp body) = [].
Proof. unfold decoding. by destruct body, (BodyErr resp). Qed.

(** ** Equations of the dispatch layer *)

Section Equations.

Context `{Structs} (env : Env).

Lemma NewRequest_eq (method url : string) (body : option string) (s : State) :
  NewRequest env method url body s =
  (Ret match newRequestErr env method url with
       | Some e => inl e
       | None => inr {| Method := method; URL := url; Body := body;
                        ContentType := None; BasicAuth := None |}
       end, s).
Proof. unfold NewRequest. by destruct (newRequestErr env method url). Qed.

Lemma sendRequest_eq (req : Request) (s : State) :
  sendRequest env req s =
  match auth (client s) with
  | None => (Panic "invalid memory address or nil pointer dereference", s)
  | Some a =>
      let req' := SetBasicAuth req (Username a) (ApiToken a) in
      let n := length (requestsOf (log s)) in
      (Ret match transport env n req' with
           | inl e => inl e
           | inr ans => inr (response n ans)
           end, extend s [EvDo req'])
  end.
Proof.
  unfold sendRequest, bind, receiver, Do. simpl.
  destruct (auth (client s)) as [a|]; [|reflexivity]. simpl.
  by destruct (transport env _ _).
Qed.

Lemma parseXmlResponse_eq (resp : Response) (body : iface) (s : State) :
  parseXmlResponse env resp body s =
  (Ret (decoded env Xml resp body), extend s (decoding Xml resp body)).
Proof.
  unfold parseXmlResponse, defer, decoded, decoding.
  destruct body as [|ty cell]; [reflexivity|].
  unfold bind, ReadAll, Unmarshal, Close, emit, ret, bind. simpl.
  destruct (BodyErr resp); simpl; by rewrite !extend_extend.
Qed.

(** The [*Item] case of [parseResponse] sits under [body == nil], where
    the interface has no dynamic type: the case is never taken, whatever
    the fuel. *)
Lemma parseResponse_eq (fuel : nat) (resp : Response) (body : iface)
    (s : State) :
  parseResponse env fuel resp body s =
  (Ret (decoded env Json resp body), extend s (decoding Json resp body)).
Proof.
  destruct fuel; unfold parseResponse, defer, decoded, decoding.
  all: destruct body as [|ty cell]; [reflexivity|].
  all: unfold bind, ReadAll, Unmarshal, Close, emit, ret, bind; simpl.
  all: destruct (BodyErr resp); simpl; by rewrite !extend_extend.
Qed.

Ltac round_trip :=
  unfold exchange, bind; rewrite NewRequest_eq;
  destruct (newRequestErr env _ _); [reflexivity|];
  try (unfold bind); rewrite sendRequest_eq; simpl;
  destruct (auth (client _)); [|reflexivity];
  simpl; unfold signed, SetBasicAuth, AddContentType; simpl;
  destruct (transport env _ _); reflexivity.

Lemma getWith_eq parse (path : string) (params : Url.Values) (body : iface)
    (s : State) :
  getWith env parse path params body s =
  exchange env "GET" (buildUrl (client s) path params) None None
    (fun e => (body, Some e)) (fun resp => parse resp body) s.
Proof. unfold getWith, receiver. unfold bind at 1. round_trip. Qed.

Lemma get_eq (path : string) (params : Url.Values) (body : iface) (s : State) :
  get env path params body s =
  exchange env "GET" (buildUrl (client s) path params) None None
    (fun e => (body, Some e))
    (fun resp => parseResponse env callDepth resp body) s.
Proof. apply getWith_eq. Qed.

Lemma getXml_eq (path : string) (params : Url.Values) (body : iface)
    (s : State) :
  getXml env path params body s =
  exchange env "GET" (buildUrl (client s) path params) None None
    (fun e => (body, Some e))
    (fun resp => parseXmlResponse env resp body) s.
Proof. unfold getXml, receiver. unfold bind at 1. round_trip. Qed.

Lemma post_eq (path : string) (params : Url.Values) (body : iface) (s : State) :
  post env path params body s =
  exchange env "POST" (buildUrl (client s) path params) None None
    (fun e => (body, Some e))
    (fun resp => parseResponse env callDepth resp body) s.
Proof. unfold post, receiver. unfold bind at 1. round_trip. Qed.

Lemma postXml_eq (path : string) (params : Url.Values) (xmlBody : string)
    (body : iface) (s : State) :
  postXml env path params xmlBody body s =
  exchange env "POST" (baseUrl (client s) ++ path ++ query params)
    (Some xmlBody) (Some "application/xml")
    (fun e => (body, Some e))
    (fun resp =>
       if negb (StatusCode resp =? 200) then
         ret (body,
              Some (Fmt.Sprintf
                      "error: HTTP POST returned status code returned: %d"
                      [Fmt.AInt (StatusCode resp)]))
       else parseXmlResponse env resp body) s.
Proof.
  unfold postXml, receiver. unfold bind at 1.
  replace (baseUrl (client s) ++ path ++ query params)
    with (match params with
          | Some v =>
              if String.eqb (Url.Encode v) "" then baseUrl (client s) ++ path
              else (baseUrl (client s) ++ path) ++ "?" ++ Url.Encode v
          | None => baseUrl (client s) ++ path
          end).
  - round_trip.
  - unfold query. destruct params as [v|].
    + destruct (String.eqb (Url.Encode v) "").
      * by rewrite append_empty_r.
      * by rewrite append_assoc.
    + by rewrite append_empty_r.
Qed.

Lemma buildUrl_eq (jenkins : Jenkins) (path : string) (params : Url.Values) :
  buildUrl jenkins path params
  = baseUrl jenkins ++ path ++ "/api/json" ++ query params.
Proof.
  unfold buildUrl, query. destruct params as [v|].
  - destruct (String.eqb (Url.Encode v) "").
    + by rewrite append_empty_r.
    + by rewrite !append_assoc.
  - by rewrite append_empty_r.
Qed.

(** A round trip whose response handler sends nothing sends at most the
    one request. *)
Lemma exchange_requests {A} (method url : string) (body ctype : option string)
    (onErr : error -> A) (onResp : Response -> M A) (s : State) :
  (forall resp s', requestsOf (log (onResp resp s').2) = requestsOf (log s')) ->
  requestsOf (log (exchange env method url body ctype onErr onResp s).2)
  = (requestsOf (log s) ++ sent env (client s) method url body ctype)%list.
Proof.
  intros quiet. unfold exchange, sent.
  destruct (newRequestErr env method url); simpl; [by rewrite app_nil_r|].
  destruct (auth (client s)); simpl; [|by rewrite app_nil_r].
  destruct (transport env _ _); [|rewrite quiet]; simpl;
    by rewrite requestsOf_app.
Qed.

(** A round trip adds to an observation of the log that ignores requests
    only what its response handler adds. *)
Lemma exchange_silent {A X} (g : Event -> list X) (method url : string)
    (body ctype : option string) (onErr : error -> A)
    (onResp : Response -> M A) (s : State) :
  (forall req, g (EvDo req) = []) ->
  (forall resp s',
      flat_map g (log (onResp resp s').2) = flat_map g (log s')) ->
  flat_map g (log (exchange env method url body ctype onErr onResp s).2)
  = flat_map g (log s).
Proof.
  intros Hreq Hresp. unfold exchange.
  destruct (newRequestErr env method url); [reflexivity|].
  destruct (auth (client s)); [|reflexivity].
  destruct (transport env _ _); [|rewrite Hresp]; simpl.
  all: by rewrite flat_map_app; simpl; rewrite Hreq, app_nil_r.
Qed.

(** The fuel of [parseResponse] is never used. *)
Lemma parseResponse_fuel (fuel fuel' : nat) (resp : Response) (body : iface)
    (s : State) :
  parseResponse env fuel resp body s = parseResponse env fuel' resp body s.
Proof. by rewrite !parseResponse_eq. Qed.

Lemma parseResponse_quiet (fuel : nat) (body : iface) (resp : Response)
    (s : State) :
  requestsOf (log (parseResponse env fuel resp body s).2) = requestsOf (log s).
Proof.
  rewrite parseResponse_eq. simpl.
  by rewrite requestsOf_app, requestsOf_decoding, app_nil_r.
Qed.

Lemma parseXmlResponse_quiet (body : iface) (resp : Response) (s : State) :
  requestsOf (log (parseXmlResponse env resp body s).2) = requestsOf (log s).
Proof.
  rewrite parseXmlResponse_eq. simpl.
  by rewrite requestsOf_app, requestsOf_decoding, app_nil_r.
Qed.

Lemma rawGet_eq (requestUrl : string) (s : State) :
  (let* r := NewRequest env "GET" requestUrl None in
   match r with
   | inl e => ret ("", Some e)
   | inr req =>
       let* r := sendRequest env req in
       match r with
       | inl e => ret ("", Some e)
       | inr res => defer (Close res) (ReadAll res)
       end
   end) s =
  exchange env "GET" requestUrl None None (fun e => ("", Some e))
    (fun res => defer (Close res) (ReadAll res)) s.
Proof. round_trip. Qed.

Lemma rawRead_eq (res : Response) (s : State) :
  defer (Close res) (ReadAll res) s =
  (Ret (BodyData res, BodyErr res),
   extend s [EvReadAll (Id res); EvClose (Id res)]).
Proof.
  unfold defer, ReadAll, Close, bind, emit, ret. simpl.
  by rewrite extend_extend.
Qed.

Lemma bind_state {A B} (m : M A) (k : A -> M B) (s : State) :
  (forall a s', (k a s').2 = s') -> (bind m k s).2 = (m s).2.
Proof.
  intros pure. unfold bind. destruct (m s) as [[a|msg|] s']; simpl; auto.
Qed.

Lemma get_requests (path : string) (params : Url.Values) (body : iface)
    (s : State) :
  requestsOf (log (get env path params body s).2)
  = (requestsOf (log s)
     ++ sent env (client s) "GET" (buildUrl (client s) path params) None None)%list.
Proof.
  rewrite get_eq. apply exchange_requests. intros. apply parseResponse_quiet.
Qed.

Lemma getXml_requests (path : string) (params : Url.Values) (body : iface)
    (s : State) :
  requestsOf (log (getXml env path params body s).2)
  = (requestsOf (log s)
     ++ sent env (client s) "GET" (buildUrl (client s) path params) None None)%list.
Proof.
  rewrite getXml_eq. apply exchange_requests. intros.
  apply parseXmlResponse_quiet.
Qed.

Lemma post_requests (path : string) (params : Url.Values) (body : iface)
    (s : State) :
  requestsOf (log (post env path params body s).2)
  = (requestsOf (log s)
     ++ sent env (client s) "POST" (buildUrl (client s) path params) None None)%list.
Proof.
  rewrite post_eq. apply exchange_requests. intros. apply parseResponse_quiet.
Qed.

(** [postXml] requests base and path verbatim, with the payload. *)
Lemma postXml_requests (path : string) (params : Url.Values) (xmlBody : string)
    (body : iface) (s : State) :
  requestsOf (log (postXml env path params xmlBody body s).2)
  = (requestsOf (log s)
     ++ sent env (client s) "POST" (baseUrl (client s) ++ path ++ query params)
          (Some xmlBody) (Some "application/xml"))%list.
Proof.
  rewrite postXml_eq. apply exchange_requests. intros resp s'.
  destruct (negb (StatusCode resp =? 200)); [reflexivity|].
  apply parseXmlResponse_quiet.
Qed.

(** What [postXml] does with an answer whose status is not 200: the status
    is reported, nothing is read or decoded, and the body stays open. *)
Lemma postXml_status_failure (path : string) (params : Url.Values)
    (xmlBody : string) (body : iface) (s : State) (a : Auth) (ans : Answer) :
  let url := baseUrl (client s) ++ path ++ query params in
  let req := signed "POST" url (Some xmlBody) (Some "application/xml") a in
  auth (client s) = Some a ->
  newRequestErr env "POST" url = None ->
  transport env (length (requestsOf (log s))) req = inr ans ->
  status ans <> 200 ->
  postXml env path params xmlBody body s =
  (Ret (body, Some ("error: HTTP POST returned status code returned: "
                    ++ GoStrings.Itoa (status ans))),
   extend s [EvDo req]).
Proof.
  intros url req Ha Hn Ht Hs. rewrite postXml_eq. unfold exchange.
  fold url. rewrite Hn, Ha. fold req. rewrite Ht. simpl.
  destruct (Z.eqb_spec (status ans) 200) as [|_]; [done|]. simpl.
  unfold ret. cbn. by rewrite append_empty_r.
Qed.

End Equations.

Lemma length_append (a b : string) :
  String.length (a ++ b) = (String.length a + String.length b)%nat.
Proof.
  induction a as [|c a IH]; [reflexivity|].
  change (S (String.length (a ++ b)) = S (String.length a + String.length b)).
  by rewrite IH.
Qed.

(** ** Build triggers *)

(** C7.  [Build] posts to [/job/{name}/build] when the parameter map is
    nil and to [/job/{name}/buildWithParameters] when it is not, an empty
    map included: the one request it sends (when the request can be built
    and the credentials are set) goes to that path under the base address,
    with the API suffix and the encoded query. *)
Theorem Build_path `{Structs} (env : Env) (job : Value) (params : Url.Values)
    (s : State) :
  requestsOf (log (Build env job params s).2)
  = (requestsOf (log s)
     ++ sent env (client s) "POST"
          (baseUrl (client s)
           ++ ("/job/" ++ Name job
               ++ match params with
                  | None => "/build"
                  | Some _ => "/buildWithParameters"
                  end)
           ++ "/api/json" ++ query params)
          None None)%list.
Proof.
  unfold Build. rewrite bind_state by (by intros [] ?).
  destruct params as [v|]; cbv beta iota.
  all: rewrite post_requests, buildUrl_eq.
  all: reflexivity.
Qed.

Example Build_path_nil :
  requestsOf (log (Build Sample.env "app" None Sample.start).2)
  = [signed "POST" "http://ci/job/app/build/api/json" None None
       {| Username := "admin"; ApiToken := "s3cret" |}].
Proof. reflexivity. Qed.

Example Build_path_empty_map :
  requestsOf (log (Build Sample.env "app" (Some ∅) Sample.start).2)
  = [signed "POST" "http://ci/job/app/buildWithParameters/api/json" None None
       {| Username := "admin"; ApiToken := "s3cret" |}].
Proof. vm_compute. reflexivity. Qed.

(** C1.  [Build] never resolves a queue item from the [Location] header.
    Its target [&item] is not nil, so [parseResponse] decodes the body: a
    run of [Build] sends at most one request, a [POST], and no [GET] to the
    queue.  At the sample server, whose answer to the trigger is an empty
    [201] with [Location: http://ci/queue/item/42/], [Build] returns the
    zero item and the decoder's error for the empty body. *)
Theorem Build_never_follows_Location :
  (forall `{Structs} (env : Env) (job : Value) (params : Url.Values) (s : State),
      exists rs,
        requestsOf (log (Build env job params s).2)
        = (requestsOf (log s) ++ rs)%list
        /\ (length rs <= 1)%nat
        /\ Forall (fun r => Method r = "POST") rs)
  /\ Build Sample.env "app" None Sample.start
     = (Ret ("", Some "unexpected end of input"),
        extend Sample.start
          [EvDo (signed "POST" "http://ci/job/app/build/api/json" None None
                   {| Username := "admin"; ApiToken := "s3cret" |});
           EvReadAll 0; EvUnmarshal Json ""; EvClose 0]).
Proof.
  split; [|reflexivity].
  intros ? env job params s. unfold Build.
  rewrite bind_state by (by intros [] ?).
  destruct params; cbv beta iota.
  all: eexists; split; [apply post_requests|].
  all: unfold sent; destruct (newRequestErr env _ _), (auth (client s)).
  all: simpl; split; try lia; repeat constructor.
Qed.

(** ** Queue items *)

(** C6.  [GetQueueItem] formats the number with [%s]: the path it requests
    is [/queue/item/%!s(int=n)], never [/queue/item/n]; for 42 the request
    goes to [http://ci/queue/item/%!s(int=42)/api/json]. *)
Theorem GetQueueItem_path :
  (forall `{Structs} (env : Env) (itemNo : Z) (s : State),
      requestsOf (log (GetQueueItem env itemNo s).2)
      = (requestsOf (log s)
         ++ sent env (client s) "GET"
              (baseUrl (client s)
               ++ ("/queue/item/%!s(int=" ++ GoStrings.Itoa itemNo ++ ")")
               ++ "/api/json")
              None None)%list)
  /\ (forall itemNo : Z,
         "/queue/item/%!s(int=" ++ GoStrings.Itoa itemNo ++ ")"
         <> "/queue/item/" ++ GoStrings.Itoa itemNo)
  /\ requestsOf (log (GetQueueItem Sample.env 42 Sample.start).2)
     = [signed "GET" "http://ci/queue/item/%!s(int=42)/api/json" None None
          {| Username := "admin"; ApiToken := "s3cret" |}].
Proof.
  split; [|split; [|reflexivity]].
  - intros ? env itemNo s. unfold GetQueueItem.
    rewrite bind_state by (by intros [] ?).
    rewrite get_requests, buildUrl_eq, Sprintf_queue_item.
    unfold query. by rewrite append_empty_r.
  - intros itemNo E. apply (f_equal String.length) in E.
    rewrite !length_append in E. simpl in E. lia.
Qed.

(** ** URLs *)

(** C2.  The JSON paths build their URL with [buildUrl]: base, path, the
    suffix [/api/json] and the query.  So does [getXml]: the configuration
    document of a job is requested at
    [base/job/{name}/config.xml/api/json], not at the path verbatim (only
    [postXml] requests base and path verbatim, see [postXml_requests]). *)
Theorem GetJobConfig_url :
  (forall `{Structs} (env : Env) (name : string) (s : State),
      requestsOf (log (GetJobConfig env name s).2)
      = (requestsOf (log s)
         ++ sent env (client s) "GET"
              (baseUrl (client s) ++ ("/job/" ++ name ++ "/config.xml")
               ++ "/api/json")
              None None)%list)
  /\ requestsOf (log (GetJobConfig Sample.env "app" Sample.start).2)
     = [signed "GET" "http://ci/job/app/config.xml/api/json" None None
          {| Username := "admin"; ApiToken := "s3cret" |}].
Proof.
  split; [|reflexivity].
  intros ? env name s. unfold GetJobConfig.
  rewrite bind_state by (by intros [] ?).
  rewrite getXml_requests, buildUrl_eq. unfold query.
  by rewrite append_empty_r.
Qed.

(** ** Decoding *)

(** C8.  With the nil interface as target, both parse functions return a
    nil error after closing the body: the body is neither read nor
    decoded, whatever the response holds.  So a [post] or [postXml] with a
    nil target reads and decodes nothing. *)
Theorem nil_target_discards_body `{Structs} (env : Env) (fuel : nat)
    (resp : Response) (s : State) :
  (parseResponse env fuel resp nil_iface s
   = (Ret (nil_iface, None), extend s [EvClose (Id resp)])
   /\ parseXmlResponse env resp nil_iface s
      = (Ret (nil_iface, None), extend s [EvClose (Id resp)]))
  /\ (forall path params,
         readsOf (log (post env path params nil_iface s).2) = readsOf (log s)
         /\ unmarshalsOf (log (post env path params nil_iface s).2)
            = unmarshalsOf (log s))
  /\ (forall path params xmlBody,
         readsOf (log (postXml env path params xmlBody nil_iface s).2)
         = readsOf (log s)
         /\ unmarshalsOf (log (postXml env path params xmlBody nil_iface s).2)
            = unmarshalsOf (log s)).
Proof.
  split; [by rewrite parseResponse_eq, parseXmlResponse_eq|].
  split; intros; [rewrite post_eq|rewrite postXml_eq].
  all: split; apply exchange_silent; try done; intros resp' s'.
  all: try destruct (negb (StatusCode resp' =? 200)); try reflexivity.
  all: rewrite ?parseResponse_eq, ?parseXmlResponse_eq; simpl.
  all: by rewrite flat_map_app, app_nil_r.
Qed.

(** Either parse function closes the body of its response once, on every
    path. *)
Lemma decoding_closes_once `{Structs} (c : Codec) (resp : Response)
    (body : iface) :
  closesOf (Id resp) (decoding c resp body) = 1%nat.
Proof.
  unfold decoding, closesOf.
  destruct body, (BodyErr resp); simpl; by rewrite Nat.eqb_refl.
Qed.

(** [parseResponse] returns for every response, target and fuel: it does
    not panic, it does not run out of fuel, and it sends nothing. *)
Lemma parseResponse_returns `{Structs} (env : Env) (fuel : nat)
    (resp : Response) (body : iface) (s : State) :
  exists r, (parseResponse env fuel resp body s).1 = Ret r
            /\ requestsOf (log (parseResponse env fuel resp body s).2)
               = requestsOf (log s).
Proof.
  eexists. split; [by rewrite parseResponse_eq|apply parseResponse_quiet].
Qed.

Example Location_item_42 :
  nth_error (GoStrings.Split "http://ci/queue/item/42/" "/") 5 = Some "42"
  /\ GoStrings.Atoi "42" = (42, None)
  /\ malformedLocation "http://ci/queue/item/42/" = false.
Proof. repeat split. Qed.

(** What the [*Item] case would meet if it were entered: no sixth piece to
    index, or a piece [strconv.Atoi] turns into 0 with an error. *)
Example Location_malformed :
  nth_error (GoStrings.Split "http://ci/queue" "/") 5 = None
  /\ (GoStrings.Atoi "item").1 = 0
  /\ malformedLocation "http://ci/queue" = true
  /\ malformedLocation "http://ci/jenkins/queue/item/42/" = true
  /\ malformedLocation "" = true.
Proof. repeat split. Qed.





(** ** Status codes *)

(** C4.  [getXml] does not look at the status: when the server answers the
    request for a job configuration with any status outside 200..299, the
    body is read and handed to [xml.Unmarshal], and [GetJobConfig] returns
    what the decoder returns (only [postXml] reports the status, see
    [postXml_status_failure]). *)
Theorem GetJobConfig_decodes_failure `{Structs} (env : Env) (name : string)
    (s : State) (a : Auth) (ans : Answer) :
  let url := baseUrl (client s) ++ ("/job/" ++ name ++ "/config.xml")
             ++ "/api/json" in
  let req := signed "GET" url None None a in
  let n := length (requestsOf (log s)) in
  auth (client s) = Some a ->
  newRequestErr env "GET" url = None ->
  transport env n req = inr ans ->
  bodyErr ans = None ->
  ~ (200 <= status ans < 300) ->
  GetJobConfig env name s
  = (Ret (decode env Xml (bodyData ans) TMavenJobItem (zero TMavenJobItem)),
     extend s [EvDo req; EvReadAll n; EvUnmarshal Xml (bodyData ans);
               EvClose n]).
Proof.
  intros url req n Ha Hn Ht Hb _. unfold GetJobConfig, bind.
  rewrite getXml_eq. change (buildUrl _ _ None) with url.
  unfold exchange. rewrite Hn, Ha. fold req n. rewrite Ht.
  rewrite parseXmlResponse_eq. unfold decoded, decoding, stored. simpl.
  rewrite Hb, extend_extend. simpl.
  by destruct (decode env Xml (bodyData ans) TMavenJobItem (zero TMavenJobItem)).
Qed.

Lemma GetJobConfig_decodes_failure_witness :
  GetJobConfig Sample.env "app" Sample.start
  = (Ret ("<maven2-moduleset/>", None),
     extend Sample.start
       [EvDo (signed "GET" "http://ci/job/app/config.xml/api/json" None None
                {| Username := "admin"; ApiToken := "s3cret" |});
        EvReadAll 0; EvUnmarshal Xml "<maven2-moduleset/>"; EvClose 0]).
Proof.
  apply (GetJobConfig_decodes_failure Sample.env "app" Sample.start
           {| Username := "admin"; ApiToken := "s3cret" |}
           (Sample.failed "<maven2-moduleset/>")).
  - reflexivity.
  - reflexivity.
  - reflexivity.
  - reflexivity.
  - simpl. lia.
Defined.

(** ** Response bodies *)

(** C5.  When [postXml] gets an answer whose status is not 200 it returns
    the status error at once: the run ends with the request, the body of
    that response is never closed. *)
Theorem postXml_leaves_body_open `{Structs} (env : Env) (path : string)
    (params : Url.Values) (xmlBody : string) (body : iface) (s : State)
    (a : Auth) (ans : Answer) :
  let url := baseUrl (client s) ++ path ++ query params in
  let req := signed "POST" url (Some xmlBody) (Some "application/xml") a in
  let n := length (requestsOf (log s)) in
  auth (client s) = Some a ->
  newRequestErr env "POST" url = None ->
  transport env n req = inr ans ->
  status ans <> 200 ->
  log (postXml env path params xmlBody body s).2 = (log s ++ [EvDo req])%list
  /\ closesOf n (log (postXml env path params xmlBody body s).2)
     = closesOf n (log s).
Proof.
  intros url req n Ha Hn Ht Hs.
  rewrite (postXml_status_failure env path params xmlBody body s a ans Ha Hn Ht Hs).
  simpl. split; [reflexivity|].
  rewrite closesOf_app. unfold closesOf. simpl. lia.
Qed.

Lemma postXml_leaves_body_open_witness :
  log (postXml Sample.env "/createItem" (nameParam "app") "<x/>" nil_iface
         Sample.start).2
  = [EvDo (signed "POST" "http://ci/createItem?name=app" (Some "<x/>")
             (Some "application/xml")
             {| Username := "admin"; ApiToken := "s3cret" |})]
  /\ closesOf 0
       (log (postXml Sample.env "/createItem" (nameParam "app") "<x/>"
               nil_iface Sample.start).2)
     = 0%nat.
Proof.
  apply (postXml_leaves_body_open Sample.env "/createItem" (nameParam "app")
           "<x/>" nil_iface Sample.start
           {| Username := "admin"; ApiToken := "s3cret" |}
           (Sample.failed "<html>Internal Server Error</html>")).
  - reflexivity.
  - reflexivity.
  - vm_compute. reflexivity.
  - simpl. lia.
Defined.

(** ** Creation payloads *)

(** C10.  When [xml.Marshal] fails on the document, [CreateJob] and
    [CreateView] drop its error and go on as [postXml] with no payload
    bytes: they send the [POST] with an empty body, and the error they
    return is the one of that [postXml], not the one of the serializer. *)
Theorem marshal_error_discarded `{Structs} (env : Env) (doc : Value)
    (jobName : string) (e : error) (s : State) :
  xmlMarshal env doc = inl e ->
  (CreateJob env doc jobName s
   = (let* (_, err) := postXml env "/createItem" (nameParam jobName) ""
                         nil_iface in
      ret err) s
   /\ requestsOf (log (CreateJob env doc jobName s).2)
      = (requestsOf (log s)
         ++ sent env (client s) "POST"
              (baseUrl (client s) ++ "/createItem" ++ query (nameParam jobName))
              (Some "") (Some "application/xml"))%list)
  /\ (CreateView env doc s
      = (let* (_, err) := postXml env "/createView" (nameParam (Name doc)) ""
                            nil_iface in
         ret err) s
      /\ requestsOf (log (CreateView env doc s).2)
         = (requestsOf (log s)
            ++ sent env (client s) "POST"
                 (baseUrl (client s) ++ "/createView"
                  ++ query (nameParam (Name doc)))
                 (Some "") (Some "application/xml"))%list).
Proof.
  intros Hfail. unfold CreateJob, CreateView, Marshal. rewrite Hfail.
  repeat split.
  all: rewrite bind_state by (by intros [] ?).
  all: apply postXml_requests.
Qed.

Lemma marshal_error_discarded_witness :
  (CreateJob Sample.env "" "app" Sample.start
   = (let* (_, err) := postXml Sample.env "/createItem" (nameParam "app") ""
                         nil_iface in
      ret err) Sample.start
   /\ requestsOf (log (CreateJob Sample.env "" "app" Sample.start).2)
      = (requestsOf (log Sample.start)
         ++ sent Sample.env (client Sample.start) "POST"
              (baseUrl (client Sample.start) ++ "/createItem"
               ++ query (nameParam "app"))
              (Some "") (Some "application/xml"))%list)
  /\ (CreateView Sample.env "" Sample.start
      = (let* (_, err) := postXml Sample.env "/createView" (nameParam "") ""
                            nil_iface in
         ret err) Sample.start
      /\ requestsOf (log (CreateView Sample.env "" Sample.start).2)
         = (requestsOf (log Sample.start)
            ++ sent Sample.env (client Sample.start) "POST"
                 (baseUrl (client Sample.start) ++ "/createView"
                  ++ query (nameParam ""))
                 (Some "") (Some "application/xml"))%list).
Proof.
  apply (marshal_error_discarded Sample.env "" "app" "marshal failed"
           Sample.start).
  reflexivity.
Defined.

Example CreateJob_posts_empty_payload :
  requestsOf (log (CreateJob Sample.env "" "app" Sample.start).2)
  = [signed "POST" "http://ci/createItem?name=app" (Some "")
       (Some "application/xml") {| Username := "admin"; ApiToken := "s3cret" |}].
Proof. vm_compute. reflexivity. Qed.

(** ** Authentication *)

Section WellBehaved.

Context `{Structs} (env : Env).

Lemma ret_wellBehaved {A} (a : A) : wellBehaved (ret a).
Proof.
  intros s. split; [reflexivity|]. exists []. simpl.
  split; [by rewrite app_nil_r|constructor].
Qed.

Lemma panic_wellBehaved {A} (msg : string) : wellBehaved (@panic A msg).
Proof.
  intros s. split; [reflexivity|]. exists []. simpl.
  split; [by rewrite app_nil_r|constructor].
Qed.

Lemma bind_wellBehaved {A B} (m : M A) (k : A -> M B) :
  wellBehaved m -> (forall a, wellBehaved (k a)) -> wellBehaved (bind m k).
Proof.
  intros Hm Hk s. destruct (Hm s) as [Hc [es [Hl Hes]]]. unfold bind.
  destruct (m s) as [[a|msg|] s1]; simpl in *; eauto.
  destruct (Hk a s1) as [Hc' [es' [Hl' Hes']]].
  split; [congruence|]. exists (es ++ es')%list. split.
  - rewrite Hl', Hl. by rewrite <- app_assoc.
  - rewrite requestsOf_app. apply Forall_app. split; [done|].
    by rewrite <- Hc.
Qed.

Lemma extend_wellBehaved {A} (r : Result A) (es : list Event) :
  requestsOf es = [] -> wellBehaved (fun s => (r, extend s es)).
Proof.
  intros quiet s. split; [reflexivity|]. exists es. simpl.
  split; [reflexivity|]. rewrite quiet. constructor.
Qed.

Lemma receiver_wellBehaved : wellBehaved receiver.
Proof.
  intros s. split; [reflexivity|]. exists []. simpl.
  split; [by rewrite app_nil_r|constructor].
Qed.

Lemma emit_wellBehaved (e : Event) :
  requestsOf [e] = [] -> wellBehaved (emit e).
Proof. intros quiet. by apply extend_wellBehaved. Qed.

Lemma defer_wellBehaved {A} (d : M unit) (body : M A) :
  wellBehaved d -> wellBehaved body -> wellBehaved (defer d body).
Proof.
  intros Hd Hb s. destruct (Hb s) as [Hc [es [Hl Hes]]]. unfold defer.
  destruct (body s) as [r s1]; simpl in *.
  destruct (Hd s1) as [Hc' [es' [Hl' Hes']]].
  split; [congruence|]. exists (es ++ es')%list. split.
  - rewrite Hl', Hl. by rewrite <- app_assoc.
  - rewrite requestsOf_app. apply Forall_app. split; [done|].
    by rewrite <- Hc.
Qed.

Lemma Close_wellBehaved (resp : Response) : wellBehaved (Close resp).
Proof. by apply emit_wellBehaved. Qed.

Lemma ReadAll_wellBehaved (resp : Response) : wellBehaved (ReadAll resp).
Proof.
  apply bind_wellBehaved; [by apply emit_wellBehaved|].
  intros _. apply ret_wellBehaved.
Qed.

Lemma Unmarshal_wellBehaved (c : Codec) (data : string) (body : iface) :
  wellBehaved (Unmarshal env c data body).
Proof.
  apply bind_wellBehaved; [by apply emit_wellBehaved|].
  intros _. apply ret_wellBehaved.
Qed.

Lemma sendRequest_wellBehaved (req : Request) :
  wellBehaved (sendRequest env req).
Proof.
  intros s. rewrite sendRequest_eq.
  destruct (auth (client s)) as [a|] eqn:Ha; [|apply panic_wellBehaved].
  simpl. split; [reflexivity|]. eexists. split; [reflexivity|].
  repeat constructor. by exists a.
Qed.

Lemma NewRequest_wellBehaved (method url : string) (body : option string) :
  wellBehaved (NewRequest env method url body).
Proof.
  unfold NewRequest. destruct (newRequestErr env method url);
    apply ret_wellBehaved.
Qed.

(** The decoder of [get] left open: [get] is well behaved when the decoder
    is. *)
Lemma getWith_wellBehaved parse (path : string) (params : Url.Values)
    (body : iface) :
  (forall resp target, wellBehaved (parse resp target)) ->
  wellBehaved (getWith env parse path params body).
Proof.
  intros Hparse. unfold getWith.
  apply bind_wellBehaved; [apply receiver_wellBehaved|]. intros jenkins.
  apply bind_wellBehaved; [apply NewRequest_wellBehaved|]. intros [e|req].
  - apply ret_wellBehaved.
  - apply bind_wellBehaved; [apply sendRequest_wellBehaved|].
    intros [e|resp]; [apply ret_wellBehaved|apply Hparse].
Qed.

(** The [*Item] case signs its lookup of the queue item like any other
    request. *)
Lemma itemCase_wellBehaved lookup (resp : Response) (body : iface) :
  (forall itemNo, wellBehaved (lookup itemNo)) ->
  wellBehaved (itemCase lookup resp body).
Proof.
  intros Hlookup. unfold itemCase. cbv zeta.
  destruct (String.eqb _ ""); [apply ret_wellBehaved|].
  destruct (nth_error _ 5) as [segment|]; [|apply panic_wellBehaved].
  destruct (GoStrings.Atoi segment) as [itemNo _].
  apply bind_wellBehaved; [apply Hlookup|intros []; apply ret_wellBehaved].
Qed.

Lemma GetQueueItemWith_wellBehaved parse (itemNo : Z) :
  (forall resp target, wellBehaved (parse resp target)) ->
  wellBehaved (GetQueueItemWith env parse itemNo).
Proof.
  intros Hparse. apply bind_wellBehaved; [|intros []; apply ret_wellBehaved].
  by apply getWith_wellBehaved.
Qed.

Lemma outOfFuel_wellBehaved {A} : wellBehaved (@outOfFuel A).
Proof.
  intros s. split; [reflexivity|]. exists []. simpl.
  split; [by rewrite app_nil_r|constructor].
Qed.

(** By induction on the fuel, through the re-entry by [GetQueueItem]. *)
Lemma parseResponse_wellBehaved (fuel : nat) (resp : Response) (body : iface) :
  wellBehaved (parseResponse env fuel resp body).
Proof.
  revert resp body. induction fuel as [|fuel IH]; intros resp body.
  all: apply defer_wellBehaved; [apply Close_wellBehaved|].
  all: destruct body as [|ty cell].
  all: try (apply bind_wellBehaved; [apply ReadAll_wellBehaved|];
            intros [data [e|]];
            [apply ret_wellBehaved|apply Unmarshal_wellBehaved]).
  all: destruct (typeOf nil_iface) as [[]|]; try apply ret_wellBehaved.
  - apply outOfFuel_wellBehaved.
  - apply itemCase_wellBehaved. intros itemNo.
    by apply GetQueueItemWith_wellBehaved.
Qed.

Lemma parseXmlResponse_wellBehaved (resp : Response) (body : iface) :
  wellBehaved (parseXmlResponse env resp body).
Proof.
  apply defer_wellBehaved; [apply Close_wellBehaved|].
  destruct body as [|ty cell]; [apply ret_wellBehaved|].
  apply bind_wellBehaved; [apply ReadAll_wellBehaved|].
  intros [data [e|]]; [apply ret_wellBehaved|apply Unmarshal_wellBehaved].
Qed.

Lemma exchange_wellBehaved {A} (method url : string) (body ctype : option string)
    (onErr : error -> A) (onResp : Response -> M A) :
  (forall resp, wellBehaved (onResp resp)) ->
  wellBehaved (exchange env method url body ctype onErr onResp).
Proof.
  intros Hresp s. unfold exchange.
  destruct (newRequestErr env method url); [apply ret_wellBehaved|].
  destruct (auth (client s)) as [a|] eqn:Ha; [|apply panic_wellBehaved].
  assert (Forall (authenticated (client s))
            [signed method url body ctype a]) as Hreq.
  { repeat constructor. by exists a. }
  destruct (transport env _ _) as [e|ans].
  - split; [reflexivity|]. by exists [EvDo (signed method url body ctype a)].
  - destruct (Hresp (response (length (requestsOf (log s))) ans)
                (extend s [EvDo (signed method url body ctype a)]))
      as [Hc [es [Hl Hes]]].
    split; [done|].
    exists (EvDo (signed method url body ctype a) :: es). split.
    + rewrite Hl. simpl. by rewrite <- app_assoc.
    + simpl. constructor; [by exists a|done].
Qed.

Lemma get_wellBehaved (path : string) (params : Url.Values) (body : iface) :
  wellBehaved (get env path params body).
Proof.
  intros s. rewrite get_eq. apply exchange_wellBehaved. intros resp.
  apply parseResponse_wellBehaved.
Qed.

Lemma getXml_wellBehaved (path : string) (params : Url.Values) (body : iface) :
  wellBehaved (getXml env path params body).
Proof.
  intros s. rewrite getXml_eq. apply exchange_wellBehaved. intros resp.
  apply parseXmlResponse_wellBehaved.
Qed.

Lemma post_wellBehaved (path : string) (params : Url.Values) (body : iface) :
  wellBehaved (post env path params body).
Proof.
  intros s. rewrite post_eq. apply exchange_wellBehaved. intros resp.
  apply parseResponse_wellBehaved.
Qed.

Lemma postXml_wellBehaved (path : string) (params : Url.Values)
    (xmlBody : string) (body : iface) :
  wellBehaved (postXml env path params xmlBody body).
Proof.
  intros s. rewrite postXml_eq. apply exchange_wellBehaved. intros resp.
  destruct (negb (StatusCode resp =? 200)); [apply ret_wellBehaved|].
  apply parseXmlResponse_wellBehaved.
Qed.

Lemma rawGet_wellBehaved (requestUrl : string) :
  wellBehaved
    (let* r := NewRequest env "GET" requestUrl None in
     match r with
     | inl e => ret ("", Some e)
     | inr req =>
         let* r := sendRequest env req in
         match r with
         | inl e => ret ("", Some e)
         | inr res => defer (Close res) (ReadAll res)
         end
     end).
Proof.
  intros s. rewrite rawGet_eq. apply exchange_wellBehaved. intros res s'.
  rewrite rawRead_eq.
  by apply (extend_wellBehaved _ [EvReadAll (Id res); EvClose (Id res)]).
Qed.

Ltac well_behaved :=
  repeat first
    [ apply ret_wellBehaved
    | apply get_wellBehaved
    | apply getXml_wellBehaved
    | apply post_wellBehaved
    | apply postXml_wellBehaved
    | apply rawGet_wellBehaved
    | apply bind_wellBehaved
    | intros [] ].

Lemma run_wellBehaved (c : Call) : wellBehaved (run env c).
Proof.
  destruct c; unfold run.
  all: apply bind_wellBehaved; [|well_behaved].
  - unfold GetJobs. well_behaved.
  - unfold GetJob. well_behaved.
  - unfold GetJobConfig. well_behaved.
  - unfold GetBuild. well_behaved.
  - unfold CreateJob. destruct (Marshal env mavenJobItem). well_behaved.
  - unfold AddJobToView. well_behaved.
  - unfold CreateView. destruct (Marshal env listView). well_behaved.
  - unfold Build. destruct params; well_behaved.
  - unfold GetBuildConsoleOutput. well_behaved.
  - unfold GetQueue. well_behaved.
  - unfold GetQueueItem. well_behaved.
  - unfold GetArtifact. well_behaved.
Qed.

End WellBehaved.

(** C9.  Whatever exported operation runs, every request it hands to the
    network carries Basic authentication made of the client's [Username]
    and [ApiToken], and the client (credentials and base address) is the
    same after the run as before. *)
Theorem every_request_authenticated `{Structs} (env : Env) (c : Call)
    (s : State) :
  client (run env c s).2 = client s
  /\ exists es,
       log (run env c s).2 = (log s ++ es)%list
       /\ Forall (authenticated (client s)) (requestsOf es).
Proof. apply run_wellBehaved. Qed.


(** ** The operations, through the dispatch layer *)

Lemma Encode_singleton (k v : string) :
  Url.Encode {[ k := [v] ]} = Url.QueryEscape k ++ "=" ++ Url.QueryEscape v.
Proof. unfold Url.Encode. rewrite map_to_list_singleton. reflexivity. Qed.

Lemma query_nameParam (n : string) :
  query (nameParam n) = "?name=" ++ Url.QueryEscape n.
Proof. unfold query, nameParam. rewrite Encode_singleton. reflexivity. Qed.

Section Operations.

Context `{Structs} (env : Env).

Lemma exchange_bind {A B} (method url : string) (body ctype : option string)
    (onErr : error -> A) (onResp : Response -> M A) (k : A -> M B)
    (f : error -> B) (s : State) :
  (forall e s', k (onErr e) s' = (Ret (f e), s')) ->
  bind (exchange env method url body ctype onErr onResp) k s
  = exchange env method url body ctype f (fun resp => bind (onResp resp) k) s.
Proof.
  intros Hk. unfold bind, exchange.
  destruct (newRequestErr env method url); [apply Hk|].
  destruct (auth (client s)); [|reflexivity].
  destruct (transport env _ _); [apply Hk|reflexivity].
Qed.

Lemma exchange_ext {A} (method url url' : string) (body ctype : option string)
    (onErr onErr' : error -> A) (onResp onResp' : Response -> M A) (s : State) :
  url = url' -> (forall e, onErr e = onErr' e) ->
  (forall resp s', onResp resp s' = onResp' resp s') ->
  exchange env method url body ctype onErr onResp s
  = exchange env method url' body ctype onErr' onResp' s.
Proof.
  intros <- He Hr. unfold exchange.
  destruct (newRequestErr env method url); [by rewrite He|].
  destruct (auth (client s)); [|reflexivity].
  destruct (transport env _ _); [by rewrite He|apply Hr].
Qed.

Lemma bind_exchange {A B} (m : M A) (k : A -> M B) (method url : string)
    (body ctype : option string) (onErr : error -> A)
    (onResp : Response -> M A) (f : error -> B) (s : State) :
  m s = exchange env method url body ctype onErr onResp s ->
  (forall e s', k (onErr e) s' = (Ret (f e), s')) ->
  bind m k s
  = exchange env method url body ctype f (fun resp => bind (onResp resp) k) s.
Proof.
  intros Hm Hk. rewrite <- (exchange_bind _ _ _ _ _ _ _ _ _ Hk).
  unfold bind. by rewrite Hm.
Qed.

Ltac via dispatch :=
  eapply eq_trans;
  [ eapply bind_exchange;
    [ eapply bind_exchange; [apply dispatch | intros; reflexivity]
    | intros; reflexivity ]
  | ].

Ltac same_url :=
  rewrite ?buildUrl_eq, ?Sprintf_queue_item; cbn;
  rewrite ?append_empty_r; reflexivity.

Ltac same_handler :=
  intros ? ?; unfold bind, handle;
  rewrite ?parseResponse_eq, ?parseXmlResponse_eq, ?rawRead_eq;
  unfold decoded, stored; simpl;
  repeat match goal with
         | |- context [BodyErr ?r] => destruct (BodyErr r)
         | |- context [decode ?e ?c ?d ?t ?v] => destruct (decode e c d t v)
         | |- context [negb (?a =? 200)] => destruct (negb (a =? 200))
         end;
  simpl; rewrite ?append_empty_r; reflexivity.

Lemma run_eq (c : Call) (s : State) :
  run env c s
  = exchange env (methodOf c) (urlOf (client s) c) (payloadOf env c) (ctypeOf c)
      (failure c) (handle env c) s.
Proof.
  destruct c; unfold run.
  - unfold GetJobs. via get_eq.
    apply exchange_ext; [same_url|reflexivity|same_handler].
  - unfold GetJob. via get_eq.
    apply exchange_ext; [same_url|reflexivity|same_handler].
  - unfold GetJobConfig. via getXml_eq.
    apply exchange_ext; [same_url|reflexivity|same_handler].
  - unfold GetBuild. via get_eq.
    apply exchange_ext; [same_url|reflexivity|same_handler].
  - unfold CreateJob, payloadOf. destruct (Marshal env mavenJobItem) as [data ?].
    via postXml_eq.
    apply exchange_ext; [same_url|reflexivity|same_handler].
  - unfold AddJobToView. via post_eq.
    apply exchange_ext; [same_url|reflexivity|same_handler].
  - unfold CreateView, payloadOf. destruct (Marshal env listView) as [data ?].
    via postXml_eq.
    apply exchange_ext; [same_url|reflexivity|same_handler].
  - unfold Build. destruct params.
    all: via post_eq.
    all: apply exchange_ext; [same_url|reflexivity|same_handler].
  - unfold GetBuildConsoleOutput.
    eapply eq_trans;
      [eapply bind_exchange; [apply rawGet_eq|intros; reflexivity]|].
    apply exchange_ext; [same_url|reflexivity|same_handler].
  - unfold GetQueue. via get_eq.
    apply exchange_ext; [same_url|reflexivity|same_handler].
  - unfold GetQueueItem. via get_eq.
    apply exchange_ext; [same_url|reflexivity|same_handler].
  - unfold GetArtifact.
    eapply eq_trans;
      [eapply bind_exchange; [apply rawGet_eq|intros; reflexivity]|].
    apply exchange_ext; [same_url|reflexivity|same_handler].
Qed.

Lemma handle_quiet (c : Call) (resp : Response) (s : State) :
  requestsOf (log (handle env c resp s).2) = requestsOf (log s).
Proof.
  unfold handle.
  destruct (modeOf c); [|destruct (viaPostXml c && _)|].
  all: cbn -[requestsOf decoding].
  all: rewrite ?requestsOf_app, ?requestsOf_decoding.
  all: by rewrite ?app_nil_r.
Qed.

Lemma run_requests (c : Call) (s : State) :
  requestsOf (log (run env c s).2)
  = (requestsOf (log s)
     ++ sent env (client s) (methodOf c) (urlOf (client s) c) (payloadOf env c)
          (ctypeOf c))%list.
Proof.
  rewrite run_eq. apply exchange_requests. intros. apply handle_quiet.
Qed.

(** With an answer in hand, an operation is its handler after the request. *)
Lemma run_answered (c : Call) (s : State) (a : Auth) (ans : Answer) :
  let n := length (requestsOf (log s)) in
  auth (client s) = Some a ->
  newRequestErr env (methodOf c) (urlOf (client s) c) = None ->
  transport env n (requestOf env (client s) a c) = inr ans ->
  run env c s
  = handle env c (response n ans)
      (extend s [EvDo (requestOf env (client s) a c)]).
Proof.
  intros n Ha Hn Ht. rewrite run_eq. unfold exchange. rewrite Hn, Ha.
  fold (requestOf env (client s) a c). fold n. by rewrite Ht.
Qed.

End Operations.

(** ** What every operation sends *)

(** X1.  Each exported operation sends at most one request, and the table
    gives it: method, URL (base, path, [/api/json] except through
    [postXml], query; for the two raw fetches [build.Url] and the rest,
    without the base address), payload and content type, signed with the
    client's credentials. *)
Theorem run_sends_its_request `{Structs} (env : Env) (c : Call) (s : State) :
  requestsOf (log (run env c s).2)
  = (requestsOf (log s)
     ++ sent env (client s) (methodOf c) (urlOf (client s) c) (payloadOf env c)
          (ctypeOf c))%list.
Proof. apply run_requests. Qed.

Example GetBuild_request :
  requestsOf (log (run Sample.env (@CallGetBuild Sample.structs "app" 7) Sample.start).2)
  = [signed "GET" "http://ci/job/app/7/api/json" None None
       {| Username := "admin"; ApiToken := "s3cret" |}].
Proof. vm_compute. reflexivity. Qed.

Example GetArtifact_request :
  requestsOf
    (log (run Sample.env (@CallGetArtifact Sample.structs "http://mirror/job/app/3" "out/a.jar")
            Sample.start).2)
  = [signed "GET" "http://mirror/job/app/3/artifact/out/a.jar" None None
       {| Username := "admin"; ApiToken := "s3cret" |}].
Proof. vm_compute. reflexivity. Qed.

(** X2.  The [name] parameter of [CreateJob], [AddJobToView] and
    [CreateView] reaches the URL query-escaped: the requests go to
    [base/createItem?name=...], [base/view/{view}/addJobToView/api/json?name=...]
    and [base/createView?name=...], the first and the last with the
    marshalled document as payload; the view name in the path is not
    escaped. *)
Theorem name_parameter_is_escaped `{Structs} (env : Env) (doc job : Value)
    (jobName viewName : string) (s : State) :
  requestsOf (log (CreateJob env doc jobName s).2)
  = (requestsOf (log s)
     ++ sent env (client s) "POST"
          (baseUrl (client s) ++ "/createItem" ++ "?name="
           ++ Url.QueryEscape jobName)
          (Some (Marshal env doc).1) (Some "application/xml"))%list
  /\ requestsOf (log (AddJobToView env viewName job s).2)
     = (requestsOf (log s)
        ++ sent env (client s) "POST"
             (baseUrl (client s) ++ ("/view/" ++ viewName ++ "/addJobToView")
              ++ "/api/json" ++ "?name=" ++ Url.QueryEscape (Name job))
             None None)%list
  /\ requestsOf (log (CreateView env doc s).2)
     = (requestsOf (log s)
        ++ sent env (client s) "POST"
             (baseUrl (client s) ++ "/createView" ++ "?name="
              ++ Url.QueryEscape (Name doc))
             (Some (Marshal env doc).1) (Some "application/xml"))%list.
Proof.
  unfold CreateJob, AddJobToView, CreateView.
  destruct (Marshal env doc) as [data ?].
  rewrite !bind_state by (by intros [] ?).
  rewrite !postXml_requests, post_requests, buildUrl_eq, !query_nameParam.
  done.
Qed.

Example CreateJob_name_escaped :
  requestsOf (log (CreateJob Sample.env "<x/>" "nightly build&deploy"
                     Sample.start).2)
  = [signed "POST" "http://ci/createItem?name=nightly+build%26deploy"
       (Some "<x/>") (Some "application/xml")
       {| Username := "admin"; ApiToken := "s3cret" |}].
Proof. vm_compute. reflexivity. Qed.

(** ** Errors before an answer *)

(** X3.  When [http.NewRequest] rejects the method or URL, the operation
    returns that error with the zero value (or no bytes) and nothing is
    sent: the run makes no library call at all. *)
Theorem rejected_request_sends_nothing `{Structs} (env : Env) (c : Call)
    (s : State) (e : error) :
  newRequestErr env (methodOf c) (urlOf (client s) c) = Some e ->
  run env c s = (Ret (failure c e), s).
Proof. intros He. rewrite run_eq. unfold exchange. by rewrite He. Qed.

Lemma rejected_request_sends_nothing_witness :
  run Sample.strict (@CallGetJob Sample.structs "app") Sample.start
  = (Ret (@RValue Sample.structs "" (Some "invalid URL")), Sample.start).
Proof.
  apply (rejected_request_sends_nothing Sample.strict (@CallGetJob Sample.structs "app")
           Sample.start "invalid URL").
  reflexivity.
Defined.

(** X4.  An error of the network is returned as it is, with the zero value
    (or no bytes): the run is the one request, nothing is read, decoded or
    closed, and nothing is retried. *)
Theorem transport_error_is_returned `{Structs} (env : Env) (c : Call)
    (s : State) (a : Auth) (e : error) :
  let req := requestOf env (client s) a c in
  auth (client s) = Some a ->
  newRequestErr env (methodOf c) (urlOf (client s) c) = None ->
  transport env (length (requestsOf (log s))) req = inl e ->
  run env c s = (Ret (failure c e), extend s [EvDo req]).
Proof.
  intros req Ha Hn Ht. rewrite run_eq. unfold exchange. rewrite Hn, Ha.
  fold (requestOf env (client s) a c). fold req. by rewrite Ht.
Qed.

Lemma transport_error_is_returned_witness :
  run Sample.offline (@CallGetBuildConsoleOutput Sample.structs "http://ci/job/app/3")
    Sample.start
  = (Ret (@RBytes Sample.structs "" (Some "dial tcp: connection refused")),
     extend Sample.start
       [EvDo (signed "GET" "http://ci/job/app/3/consoleText" None None
                {| Username := "admin"; ApiToken := "s3cret" |})]).
Proof.
  apply (transport_error_is_returned Sample.offline
           (@CallGetBuildConsoleOutput Sample.structs "http://ci/job/app/3") Sample.start
           {| Username := "admin"; ApiToken := "s3cret" |}
           "dial tcp: connection refused").
  - reflexivity.
  - reflexivity.
  - reflexivity.
Defined.

(** X5.  On a client made with a nil [*Auth], every operation whose
    request can be built panics in [sendRequest], before anything is
    sent. *)
Theorem nil_credentials_panic `{Structs} (env : Env) (c : Call) (s : State) :
  auth (client s) = None ->
  newRequestErr env (methodOf c) (urlOf (client s) c) = None ->
  exists msg, run env c s = (Panic msg, s).
Proof.
  intros Ha Hn. rewrite run_eq. unfold exchange. rewrite Hn, Ha. by eexists.
Qed.

Lemma nil_credentials_panic_witness :
  exists msg, run Sample.env CallGetQueue Sample.anonymous
              = (Panic msg, Sample.anonymous).
Proof.
  apply (nil_credentials_panic Sample.env CallGetQueue Sample.anonymous).
  - reflexivity.
  - reflexivity.
Defined.

(** X6.  With credentials set, every operation returns: whatever the
    server answers (status, headers, [Location] included, body), no
    operation panics or fails to terminate. *)
Theorem operations_return `{Structs} (env : Env) (c : Call) (s : State)
    (a : Auth) :
  auth (client s) = Some a ->
  exists reply, (run env c s).1 = Ret reply.
Proof.
  intros Ha. rewrite run_eq. unfold exchange. rewrite Ha.
  destruct (newRequestErr env _ _); [by eexists|].
  destruct (transport env _ _); [by eexists|].
  unfold handle.
  destruct (modeOf c); [|destruct (viaPostXml c && _)|]; by eexists.
Qed.

Lemma operations_return_witness :
  exists reply, (run Sample.env (@CallBuild Sample.structs "app" None) Sample.start).1
                = Ret reply.
Proof.
  apply (operations_return Sample.env (@CallBuild Sample.structs "app" None) Sample.start
           {| Username := "admin"; ApiToken := "s3cret" |}).
  reflexivity.
Defined.

(** ** What every operation does with the answer *)

(** X7.  An operation that decodes (JSON, or XML for [GetJobConfig])
    returns what the decoder makes of the body, value and error alike:
    the run is request, read, decode, close.  Neither the status nor any
    header of the answer is looked at. *)
Theorem decoded_reply `{Structs} (env : Env) (c : Call) (s : State) (a : Auth)
    (ans : Answer) (codec : Codec) (ty : GoType) :
  let n := length (requestsOf (log s)) in
  let req := requestOf env (client s) a c in
  let d := decode env codec (bodyData ans) ty (zero ty) in
  modeOf c = Decode codec ty ->
  auth (client s) = Some a ->
  newRequestErr env (methodOf c) (urlOf (client s) c) = None ->
  transport env n req = inr ans ->
  bodyErr ans = None ->
  run env c s
  = (Ret (RValue (project c d.1) d.2),
     extend s [EvDo req; EvReadAll n; EvUnmarshal codec (bodyData ans);
               EvClose n]).
Proof.
  intros n req d Hmode Ha Hn Ht Hb. rewrite (run_answered env c s a ans Ha Hn Ht).
  unfold handle. rewrite Hmode. unfold decoded, decoding, stored. simpl.
  rewrite Hb, extend_extend. subst d.
  by destruct (decode env codec (bodyData ans) ty (zero ty)).
Qed.

Lemma decoded_reply_witness :
  run (Sample.answering 404 "Not Found") (@CallGetJob Sample.structs "app")
    Sample.start
  = (Ret (@RValue Sample.structs "Not Found" None),
     extend Sample.start
       [EvDo (signed "GET" "http://ci/job/app/api/json" None None
                {| Username := "admin"; ApiToken := "s3cret" |});
        EvReadAll 0; EvUnmarshal Json "Not Found"; EvClose 0]).
Proof.
  apply (decoded_reply (Sample.answering 404 "Not Found")
           (@CallGetJob Sample.structs "app") Sample.start
           {| Username := "admin"; ApiToken := "s3cret" |}
           {| status := 404; header := ∅; bodyData := "Not Found";
              bodyErr := None |} Json TJob).
  - reflexivity.
  - reflexivity.
  - reflexivity.
  - reflexivity.
  - reflexivity.
Defined.

(** X8.  When reading the body fails, a decoding operation returns the
    read error with the zero value: the decoder is not called, and the body
    is still closed. *)
Theorem read_error_is_returned `{Structs} (env : Env) (c : Call) (s : State)
    (a : Auth) (ans : Answer) (codec : Codec) (ty : GoType) (e : error) :
  let n := length (requestsOf (log s)) in
  let req := requestOf env (client s) a c in
  modeOf c = Decode codec ty ->
  auth (client s) = Some a ->
  newRequestErr env (methodOf c) (urlOf (client s) c) = None ->
  transport env n req = inr ans ->
  bodyErr ans = Some e ->
  run env c s
  = (Ret (failure c e), extend s [EvDo req; EvReadAll n; EvClose n]).
Proof.
  intros n req Hmode Ha Hn Ht Hb. rewrite (run_answered env c s a ans Ha Hn Ht).
  unfold handle, failure. rewrite Hmode. unfold decoded, decoding. simpl.
  by rewrite Hb, extend_extend.
Qed.

Lemma read_error_is_returned_witness :
  run Sample.flaky (@CallGetQueue Sample.structs) Sample.start
  = (Ret (@RValue Sample.structs "" (Some "unexpected EOF")),
     extend Sample.start
       [EvDo (signed "GET" "http://ci/queue/api/json" None None
                {| Username := "admin"; ApiToken := "s3cret" |});
        EvReadAll 0; EvClose 0]).
Proof.
  apply (read_error_is_returned Sample.flaky (@CallGetQueue Sample.structs)
           Sample.start {| Username := "admin"; ApiToken := "s3cret" |}
           Sample.truncated Json TQueue "unexpected EOF").
  - reflexivity.
  - reflexivity.
  - reflexivity.
  - reflexivity.
  - reflexivity.
Defined.

(** X9.  [GetBuildConsoleOutput] and [GetArtifact] return the bytes of the
    body as read, with the read error if any, and close the body; nothing
    is decoded and the status is not looked at, so the body of an error
    page comes back with a nil error. *)
Theorem raw_fetch_returns_the_bytes `{Structs} (env : Env) (c : Call)
    (s : State) (a : Auth) (ans : Answer) :
  let n := length (requestsOf (log s)) in
  let req := requestOf env (client s) a c in
  modeOf c = Raw ->
  auth (client s) = Some a ->
  newRequestErr env (methodOf c) (urlOf (client s) c) = None ->
  transport env n req = inr ans ->
  run env c s
  = (Ret (RBytes (bodyData ans) (bodyErr ans)),
     extend s [EvDo req; EvReadAll n; EvClose n]).
Proof.
  intros n req Hmode Ha Hn Ht. rewrite (run_answered env c s a ans Ha Hn Ht).
  unfold handle. rewrite Hmode. simpl. by rewrite extend_extend.
Qed.

Lemma raw_fetch_returns_the_bytes_witness :
  run (Sample.answering 404 "Not Found")
    (@CallGetBuildConsoleOutput Sample.structs "http://ci/job/app/3")
    Sample.start
  = (Ret (@RBytes Sample.structs "Not Found" None),
     extend Sample.start
       [EvDo (signed "GET" "http://ci/job/app/3/consoleText" None None
                {| Username := "admin"; ApiToken := "s3cret" |});
        EvReadAll 0; EvClose 0]).
Proof.
  apply (raw_fetch_returns_the_bytes (Sample.answering 404 "Not Found")
           (@CallGetBuildConsoleOutput Sample.structs "http://ci/job/app/3")
           Sample.start {| Username := "admin"; ApiToken := "s3cret" |}
           {| status := 404; header := ∅; bodyData := "Not Found";
              bodyErr := None |}).
  - reflexivity.
  - reflexivity.
  - reflexivity.
  - reflexivity.
Defined.

(** X10.  [AddJobToView] returns a nil error for every answer of the
    server, whatever its status and body: the body is closed unread. *)
Theorem AddJobToView_accepts_any_answer `{Structs} (env : Env)
    (viewName : string) (job : Value) (s : State) (a : Auth) (ans : Answer) :
  let c := CallAddJobToView viewName job in
  let n := length (requestsOf (log s)) in
  let req := requestOf env (client s) a c in
  auth (client s) = Some a ->
  newRequestErr env "POST" (urlOf (client s) c) = None ->
  transport env n req = inr ans ->
  AddJobToView env viewName job s = (Ret None, extend s [EvDo req; EvClose n]).
Proof.
  intros c n req Ha Hn Ht.
  pose proof (run_answered env c s a ans Ha Hn Ht) as Hrun.
  unfold run, c, bind in Hrun. fold c n req in Hrun.
  unfold handle in Hrun. simpl in Hrun. rewrite extend_extend in Hrun.
  destruct (AddJobToView env viewName job s) as [[err|msg|] s'];
    [|discriminate..].
  unfold ret in Hrun. by injection Hrun as -> ->.
Qed.

Lemma AddJobToView_accepts_any_answer_witness :
  AddJobToView (Sample.answering 500 "Internal Server Error") "nightly" "app"
    Sample.start
  = (Ret None,
     extend Sample.start
       [EvDo (signed "POST"
                "http://ci/view/nightly/addJobToView/api/json?name=app"
                None None {| Username := "admin"; ApiToken := "s3cret" |});
        EvClose 0]).
Proof.
  apply (AddJobToView_accepts_any_answer
           (Sample.answering 500 "Internal Server Error") "nightly"
           ("app" : @Value Sample.structs) Sample.start
           {| Username := "admin"; ApiToken := "s3cret" |}
           {| status := 500; header := ∅;
              bodyData := "Internal Server Error"; bodyErr := None |}).
  - reflexivity.
  - reflexivity.
  - vm_compute. reflexivity.
Defined.

(** X11.  [CreateJob] and [CreateView] return a nil error for the status
    200 only.  Any other status, 201 and the rest of 2xx included, is
    returned as an error that ends with the status in decimal, and then the
    body is neither read nor closed. *)
Theorem create_succeeds_on_200_only `{Structs} (env : Env) (c : Call)
    (s : State) (a : Auth) (ans : Answer) :
  let n := length (requestsOf (log s)) in
  let req := requestOf env (client s) a c in
  viaPostXml c = true ->
  auth (client s) = Some a ->
  newRequestErr env (methodOf c) (urlOf (client s) c) = None ->
  transport env n req = inr ans ->
  run env c s
  = if status ans =? 200 then
      (Ret (RError None), extend s [EvDo req; EvClose n])
    else
      (Ret (RError (Some ("error: HTTP POST returned status code returned: "
                          ++ GoStrings.Itoa (status ans)))),
       extend s [EvDo req]).
Proof.
  intros n req Hvia Ha Hn Ht. rewrite (run_answered env c s a ans Ha Hn Ht).
  unfold handle. rewrite Hvia.
  destruct c; try discriminate Hvia; simpl.
  all: destruct (status ans =? 200); simpl; by rewrite ?extend_extend.
Qed.

Lemma create_succeeds_on_200_only_witness :
  run (Sample.answering 201 "") (@CallCreateView Sample.structs "nightly")
    Sample.start
  = (Ret (@RError Sample.structs
            (Some "error: HTTP POST returned status code returned: 201")),
     extend Sample.start
       [EvDo (signed "POST" "http://ci/createView?name=nightly"
                (Some "nightly") (Some "application/xml")
                {| Username := "admin"; ApiToken := "s3cret" |})]).
Proof.
  apply (create_succeeds_on_200_only (Sample.answering 201 "")
           (@CallCreateView Sample.structs "nightly") Sample.start
           {| Username := "admin"; ApiToken := "s3cret" |}
           {| status := 201; header := ∅; bodyData := ""; bodyErr := None |}).
  - reflexivity.
  - reflexivity.
  - reflexivity.
  - vm_compute. reflexivity.
Defined.

(** ** Response bodies, once more *)

Lemma closesOf_close (id n : nat) :
  closesOf id [EvClose n] = if Nat.eqb n id then 1%nat else 0%nat.
Proof. unfold closesOf. simpl. by destruct (Nat.eqb n id). Qed.

Lemma closesOf_decoding `{Structs} (id : nat) (c : Codec) (resp : Response)
    (body : iface) :
  closesOf id (decoding c resp body)
  = if Nat.eqb (Id resp) id then 1%nat else 0%nat.
Proof.
  unfold decoding, closesOf.
  destruct body, (BodyErr resp); simpl; by destruct (Nat.eqb (Id resp) id).
Qed.

(** X12.  No operation closes a body twice, and none closes a body other
    than that of its own response: among the library calls of a run there
    is at most one [Close], of the response to the request of that run. *)
Theorem body_closed_at_most_once `{Structs} (env : Env) (c : Call) (s : State) :
  exists es,
    log (run env c s).2 = (log s ++ es)%list
    /\ forall id,
         (closesOf id es <= 1)%nat
         /\ (id <> length (requestsOf (log s)) -> closesOf id es = 0%nat).
Proof.
  rewrite run_eq. unfold exchange.
  destruct (newRequestErr env _ _).
  { exists []. simpl. rewrite app_nil_r. split; [done|].
    intros id. unfold closesOf. simpl. split; [lia|done]. }
  destruct (auth (client s)) as [a|].
  2: { exists []. simpl. rewrite app_nil_r. split; [done|].
       intros id. unfold closesOf. simpl. split; [lia|done]. }
  destruct (transport env _ _) as [e|ans].
  { eexists. split; [reflexivity|]. intros id. unfold closesOf. simpl.
    split; [lia|done]. }
  unfold handle.
  destruct (modeOf c) as [codec ty| |];
    [|destruct (viaPostXml c && _)|]; cbn [snd log extend].
  all: eexists; split; [by rewrite <- ?app_assoc|].
  all: intros id; rewrite ?closesOf_app, ?closesOf_decoding.
  all: unfold closesOf; simpl.
  all: destruct (Nat.eqb_spec (length (requestsOf (log s))) id); simpl.
  all: split; try lia; congruence.
Qed.

(** X13.  Every operation but [CreateJob] and [CreateView] closes the body
    of the response it got exactly once, whatever the status and whether or
    not reading or decoding fails. *)
Theorem body_closed_once `{Structs} (env : Env) (c : Call) (s : State)
    (a : Auth) (ans : Answer) :
  let n := length (requestsOf (log s)) in
  viaPostXml c = false ->
  auth (client s) = Some a ->
  newRequestErr env (methodOf c) (urlOf (client s) c) = None ->
  transport env n (requestOf env (client s) a c) = inr ans ->
  closesOf n (log (run env c s).2) = (closesOf n (log s) + 1)%nat.
Proof.
  intros n Hvia Ha Hn Ht. rewrite (run_answered env c s a ans Ha Hn Ht).
  unfold handle. rewrite Hvia.
  destruct (modeOf c) as [codec ty| |]; cbn [snd log extend andb].
  all: rewrite !closesOf_app, ?closesOf_decoding.
  all: unfold closesOf, n; simpl; rewrite ?Nat.eqb_refl; simpl; lia.
Qed.

Lemma body_closed_once_witness :
  closesOf 0
    (log (run Sample.flaky (@CallGetJob Sample.structs "app") Sample.start).2)
  = (closesOf 0 (log Sample.start) + 1)%nat.
Proof.
  apply (body_closed_once Sample.flaky (@CallGetJob Sample.structs "app")
           Sample.start {| Username := "admin"; ApiToken := "s3cret" |}
           Sample.truncated).
  - reflexivity.
  - reflexivity.
  - reflexivity.
  - reflexivity.
Defined.

(** ** The query of a URL *)

Lemma pair_not_empty (k v : string) : Url.pair k v <> "".
Proof.
  unfold Url.pair. intros E. apply (f_equal String.length) in E.
  rewrite !length_append in E. simpl in E. lia.
Qed.

Lemma join_empty (parts : list string) :
  Forall (fun p => p <> "") parts -> Url.join parts = "" -> parts = [].
Proof.
  destruct parts as [|p rest]; [done|]. intros Hne E. exfalso.
  apply Forall_cons in Hne as [Hp _]. apply Hp.
  destruct rest; [done|]. simpl in E.
  apply (f_equal String.length) in E. rewrite !length_append in E.
  simpl in E. lia.
Qed.

Lemma flat_map_nil_iff {A B} (f : A -> list B) (l : list A) :
  flat_map f l = [] <-> Forall (fun x => f x = []) l.
Proof.
  induction l as [|x l IH]; simpl; [by split|].
  split.
  - intros E. apply app_eq_nil in E as [Hx Hl].
    constructor; [done|by apply IH].
  - intros Hall. apply Forall_cons in Hall as [Hx Hl].
    rewrite Hx. by apply IH.
Qed.

(** [Encode] gives the empty string exactly when no key has a value. *)
Lemma Encode_empty_iff (v : gmap string (list string)) :
  Url.Encode v = "" <-> forall k vs, v !! k = Some vs -> vs = [].
Proof.
  unfold Url.Encode. split.
  - intros E k vs Hk. apply join_empty in E.
    + apply flat_map_nil_iff in E. rewrite Forall_forall in E.
      assert ((k, vs) ∈ merge_sort Url.keyLe (map_to_list v)) as Hin.
      { rewrite merge_sort_Permutation. by apply elem_of_map_to_list. }
      specialize (E (k, vs) Hin). simpl in E.
      by apply map_eq_nil in E.
    + apply Forall_flat_map, Forall_forall. intros [k' vs'] _.
      apply Forall_forall. intros p Hp. simpl in Hp.
      apply list_elem_of_fmap in Hp as [x [-> _]]. apply pair_not_empty.
  - intros Hall.
    assert (flat_map (fun kv => map (Url.pair kv.1) kv.2)
              (merge_sort Url.keyLe (map_to_list v)) = []) as ->; [|done].
    apply flat_map_nil_iff, Forall_forall. intros [k vs] Hin. simpl.
    rewrite merge_sort_Permutation in Hin.
    apply elem_of_map_to_list in Hin. by rewrite (Hall k vs Hin).
Qed.

(** X14.  [buildUrl] adds a query exactly when some key of the parameter
    map has a value: the empty map and a map whose keys all have no value
    give the URL of the nil map, base, path and [/api/json]; any other map
    gives that URL followed by [?] and the encoded parameters. *)
Theorem buildUrl_query (jenkins : Jenkins) (path : string)
    (v : gmap string (list string)) :
  (buildUrl jenkins path (Some v) = buildUrl jenkins path None
   <-> forall k vs, v !! k = Some vs -> vs = [])
  /\ (buildUrl jenkins path (Some v) = buildUrl jenkins path None
      \/ buildUrl jenkins path (Some v)
         = buildUrl jenkins path None ++ "?" ++ Url.Encode v)
  /\ buildUrl jenkins path None = baseUrl jenkins ++ path ++ "/api/json".
Proof.
  unfold buildUrl. split; [|split; [|reflexivity]].
  - rewrite <- Encode_empty_iff.
    destruct (String.eqb_spec (Url.Encode v) "") as [E|Hne]; [done|].
    split; [|done]. intros E. exfalso.
    apply (f_equal String.length) in E. rewrite !length_append in E.
    simpl in E. lia.
  - destruct (String.eqb (Url.Encode v) ""); [by left|by right].
Qed.

Example buildUrl_no_value :
  buildUrl Sample.jenkins "/job/app/buildWithParameters"
    (Some {[ "branch" := [] ]})
  = "http://ci/job/app/buildWithParameters/api/json"
  /\ buildUrl Sample.jenkins "/job/app/buildWithParameters"
       (Some {[ "branch" := ["main"]; "clean" := ["true"] ]})
     = "http://ci/job/app/buildWithParameters/api/json?branch=main&clean=true".
Proof. vm_compute. split; reflexivity. Qed.

(** ** The [Location] header *)

(** X15.  What [parseResponse] returns and does depends on the body of the
    response and on the target only: two responses with the same body are
    treated alike whatever their status and headers, [Location] included,
    and whatever the fuel. *)
Theorem parseResponse_reads_body_only `{Structs} (env : Env)
    (fuel fuel' : nat) (resp resp' : Response) (body : iface) (s : State) :
  Id resp = Id resp' ->
  BodyData resp = BodyData resp' ->
  BodyErr resp = BodyErr resp' ->
  parseResponse env fuel resp body s = parseResponse env fuel' resp' body s.
Proof.
  intros Hid Hdata Herr. rewrite !parseResponse_eq.
  unfold decoded, decoding. by rewrite Hid, Hdata, Herr.
Qed.

Lemma parseResponse_reads_body_only_witness :
  parseResponse Sample.env 1 Sample.shortLocation Sample.itemTarget Sample.start
  = parseResponse Sample.env 0 (response 0 Sample.created) Sample.itemTarget
      Sample.start.
Proof.
  apply (parseResponse_reads_body_only Sample.env 1 0 Sample.shortLocation
           (response 0 Sample.created) Sample.itemTarget Sample.start).
  - reflexivity.
  - reflexivity.
  - reflexivity.
Defined.



(** ** Calls in a row *)

(** X17.  A call leaves the client as it found it, so calls on one client
    compose: after any first operation, a second one sends the request it
    would send on a fresh client, under the same base address and
    credentials, and the requests of the run are those of the first
    followed by those of the second. *)
Theorem calls_compose `{Structs} (env : Env) (c1 c2 : Call) (s : State) :
  let s1 := (run env c1 s).2 in
  client s1 = client s
  /\ requestsOf (log (run env c2 s1).2)
     = (requestsOf (log s)
        ++ sent env (client s) (methodOf c1) (urlOf (client s) c1)
             (payloadOf env c1) (ctypeOf c1)
        ++ sent env (client s) (methodOf c2) (urlOf (client s) c2)
             (payloadOf env c2) (ctypeOf c2))%list.
Proof.
  intros s1. destruct (run_wellBehaved env c1 s) as [Hc _]. fold s1 in Hc.
  split; [done|]. rewrite run_requests, Hc. unfold s1.
  by rewrite run_requests, <- app_assoc.
Qed.

Example trigger_then_queue :
  requestsOf
    (log (run Sample.env (@CallGetQueue Sample.structs)
            (run Sample.env (@CallBuild Sample.structs "app" None)
               Sample.start).2).2)
  = [signed "POST" "http://ci/job/app/build/api/json" None None
       {| Username := "admin"; ApiToken := "s3cret" |};
     signed "GET" "http://ci/queue/api/json" None None
       {| Username := "admin"; ApiToken := "s3cret" |}].
Proof. vm_compute. reflexivity. Qed.
